(** * The control server of the DNS-forwarding daemon

    A shallow embedding of [registerControlServerHandler] and of the
    eight handlers it registers on the local control socket, with the
    properties of the design document stated over it.

    Every handler is a computation in a small state monad.  The state
    (a [World]) holds what the Go handler mutates or reads: the
    [http.ResponseWriter], the fields of [p *prog] it touches, the
    process-wide deactivation PIN, and a trace of the calls made to
    collaborators outside this file.  The answers of those collaborators
    (the remote API, the daemon goroutine, the clock, the metrics
    registry) are arguments of the handler. *)

From stdpp Require Import gmap strings list fin_maps sorting.
From Stdlib Require Import ZArith Lia.

Open Scope Z_scope.

(** ** net/http: status codes and the response writer *)

Module http.

Definition StatusOK : Z := 200.
Definition StatusCreated : Z := 201.
Definition StatusMovedPermanently : Z := 301.
Definition StatusBadRequest : Z := 400.
Definition StatusForbidden : Z := 403.
Definition StatusRequestTimeout : Z := 408.
Definition StatusPreconditionFailed : Z := 412.
Definition StatusInternalServerError : Z := 500.
Definition StatusServiceUnavailable : Z := 503.

Section Writer.
(** [Body] is what a handler may write: it is fixed further down. *)
Context {Body : Type}.

(** The part of an [http.ResponseWriter] a handler can observe: the
    Content-Type header, the status line once it is written, and the
    chunks written to the body, oldest first. *)
Record ResponseWriter := mkWriter {
  contentType : string;
  wroteHeader : option Z;
  written : list Body
}.

Definition newWriter : ResponseWriter :=
  {| contentType := EmptyString; wroteHeader := None; written := [] |}.

Definition setContentType (ct : string) (w : ResponseWriter) : ResponseWriter :=
  match wroteHeader w with
  | None => {| contentType := ct; wroteHeader := None; written := written w |}
  | Some _ => w
  end.

(** [w.WriteHeader(code)]: only the first call counts, a later one is
    logged as superfluous and dropped. *)
Definition WriteHeader (code : Z) (w : ResponseWriter) : ResponseWriter :=
  match wroteHeader w with
  | None => {| contentType := contentType w; wroteHeader := Some code;
               written := written w |}
  | Some _ => w
  end.

(** [w.Write(b)]: writes the header with 200 when none was written. *)
Definition Write (b : Body) (w : ResponseWriter) : ResponseWriter :=
  let w' := WriteHeader StatusOK w in
  {| contentType := contentType w'; wroteHeader := wroteHeader w';
     written := written w' ++ [b] |}.

(** The status the client reads: 200 when the handler returned
    without writing anything. *)
Definition status (w : ResponseWriter) : Z :=
  default StatusOK (wroteHeader w).
End Writer.

Global Arguments ResponseWriter : clear implicits.

End http.

(** ** net/netip: the address type of a client record *)

Module netip.

(** An [Addr] is its bit length (0 for the zero Addr, 32 for IPv4, 128
    for IPv6), the two halves of its 128-bit value, and the IPv6 zone. *)
Record Addr := mkAddr { BitLen : Z; hi : Z; lo : Z; Zone : string }.

Definition Is6 (ip : Addr) : bool := BitLen ip =? 128.

(** Go compares strings byte by byte; so does [String.compare]. *)
Definition Compare (ip ip2 : Addr) : Z :=
  if BitLen ip <? BitLen ip2 then -1
  else if BitLen ip2 <? BitLen ip then 1
  else if hi ip <? hi ip2 then -1
  else if hi ip2 <? hi ip then 1
  else if lo ip <? lo ip2 then -1
  else if lo ip2 <? lo ip then 1
  else if Is6 ip then
    match String.compare (Zone ip) (Zone ip2) with
    | Lt => -1
    | Gt => 1
    | Eq => 0
    end
  else 0.

Definition Less (ip ip2 : Addr) : bool := Compare ip ip2 =? -1.

Definition IPv4 (a b c d : Z) : Addr :=
  {| BitLen := 32; hi := 0;
     lo := Z.lor (Z.shiftl 65535 32)
             (Z.lor (Z.shiftl a 24) (Z.lor (Z.shiftl b 16) (Z.lor (Z.shiftl c 8) d)));
     Zone := EmptyString |}.

End netip.

(** ** The data of the control server *)

(** [clientinfo.Client], as far as the listing handler reads and writes it. *)
Record Client := mkClient {
  IP : netip.Addr;
  Mac : string;
  Hostname : string;
  QueryCount : Z;
  IncludeQueryCount : bool
}.

Global Instance Addr_eq_dec : EqDecision netip.Addr.
Proof. solve_decision. Defined.

Global Instance Client_eq_dec : EqDecision Client.
Proof. solve_decision. Defined.

(** [ctrld.ListenerConfig], as far as the reload handler reads it. *)
Module ctrld.
Record ListenerConfig := mkListener { IP : string; Port : Z }.

Global Instance ListenerConfig_eq_dec : EqDecision ListenerConfig.
Proof. solve_decision. Defined.
End ctrld.

(** What a handler writes to the body.  A JSON document is kept as the
    value that was encoded, not as its text. *)
Inductive Body :=
| Text (s : string)                       (* raw bytes, or a line of http.Error *)
| JsonClients (clients : list Client)     (* []*clientinfo.Client *)
| JsonLogView (data : string)             (* logViewResponse{Data} *)
| JsonLogSent (size : Z) (err : string).  (* logSentResponse{Size, Error} *)

(** Calls that leave the handler, in the order they are made. *)
Inductive Event :=
| EvLock                                   (* p.mu.Lock() *)
| EvUnlock                                 (* p.mu.Unlock() *)
| EvListClients                            (* p.ciTable.ListClients() *)
| EvSendReloadSignal                       (* p.sendReloadSignal() *)
| EvSelect (ch : string) (bound : Z)       (* select { <-ch ; <-time.After(bound) } *)
| EvRecv (ch : string)                     (* <-ch *)
| EvFetchResolverConfig (uid : string)     (* controld.FetchResolverConfig *)
| EvLogContent                             (* p.logContent() *)
| EvSendLogs (uid : string) (data : string) (* controld.SendLogs, LogFile = base64 of data *)
| EvNow.                                   (* time.Now() *)

Global Instance Event_eq_dec : EqDecision Event.
Proof. solve_decision. Defined.

(** ** time: durations are counted in nanoseconds *)

Module time.
Definition Second : Z := 1000000000.
Definition maxDuration : Z := 2 ^ 63 - 1.
Definition minDuration : Z := - 2 ^ 63.

(** [t.Sub(u)]: the difference, saturated to the range of a Duration. *)
Definition Sub (t u : Z) : Z :=
  Z.max minDuration (Z.min maxDuration (t - u)).

(** When a channel becomes ready, counted from the moment the handler
    starts to wait on it; [None] when it never does. *)
Definition Fires := option Z.

Inductive Selected := Received | TimedOut.

Global Instance Selected_eq_dec : EqDecision Selected.
Proof. solve_decision. Defined.

(** [select { case <-ch: ... ; case <-time.After(d): ... }].
    The case that is ready first is taken, after that long; when both
    become ready at the same instant the runtime picks one ([coin]). *)
Definition selectAfter (ch : Fires) (d : Z) (coin : bool) : Selected * Z :=
  match ch with
  | None => (TimedOut, d)
  | Some t =>
      if t <? d then (Received, t)
      else if d <? t then (TimedOut, d)
      else if coin then (Received, t) else (TimedOut, d)
  end.
End time.

(** ** sort: the contract of [sort.Slice], by insertion *)

Module sort.
Section Slice.
Context {A : Type} (less : A → A → bool).

(** One pass of the inner loop
    [for j := i; j > a && less(data[j], data[j-1]); j-- { swap }]:
    [x] moves left past every element it is less than.  [before] is
    the part on the left of [x], nearest element first; so is the
    result. *)
Fixpoint sink (x : A) (before : list A) : list A :=
  match before with
  | [] => [x]
  | y :: before' => if less x y then y :: sink x before' else x :: before
  end.

(** [sort.Slice(x, less)].  The library sorts short slices by
    insertion and longer ones by pattern-defeating quicksort; both
    give a permutation in which no element is less than the one
    before it, and neither is stable.  The insertion sort stands for
    both here. *)
Definition Slice (x : list A) : list A :=
  reverse (fold_left (λ sorted e, sink e sorted) x []).
End Slice.
End sort.

(** ** The handlers *)

Section ControlServer.

(** [ctrld.ServiceConfig] is declared outside this file; the handler
    only hands two of its values to [reflect.DeepEqual]. *)
Context {ServiceConfig : Type}.
Variable DeepEqual : ServiceConfig → ServiceConfig → bool.

(** The type of a PIN, the reserved value [defaultDeactivationPin] and
    the throttle interval [logSentInterval] are declared outside this
    file as well. *)
Context {PinCode : Type} `{EqDecision PinCode}.
Variable defaultDeactivationPin : PinCode.
Variable logSentInterval : Z.

(** [ctrld.Config]: the listeners by name, and the service block.  The
    Go map holds pointers; a nil entry would make the handler panic at
    [v.IP], and the map is taken without nil entries. *)
Record Config := mkConfig {
  Listener : gmap string ctrld.ListenerConfig;
  Service : ServiceConfig
}.

(** [controld.ResolverConfig]: the PIN is a pointer, nil when the
    remote side has none configured. *)
Record ResolverConfig := mkResolverConfig { DeactivationPin : option PinCode }.

Record deactivationRequest := mkDeactivationRequest { Pin : PinCode }.

(** What [GetMetricWithLabelValues] followed by [m.Write(dm)] gives
    for one client. *)
Inductive Metric :=
| MetricLookupFailed (err : string)
| MetricWriteFailed (err : string)
| MetricCounter (value : Z).            (* int64(dm.Counter.GetValue()) *)

(** How [json.NewEncoder(w).Encode(v)] ends: the document is written,
    or marshalling fails before a byte is written, or the write to the
    connection fails (the header is out by then). *)
Inductive Encoding :=
| EncodeOk
| EncodeMarshalError (err : string)
| EncodeWriteError (err : string).

(** The answers of the collaborators during one request. *)
Record Env := mkEnv {
  (* listing *)
  ListClients : list Client;
  metricsQueryStats : bool;
  GetMetric : netip.Addr → string → string → Metric;
  Encode : Encoding;
  (* readiness *)
  onStartedDone : time.Fires;
  (* reload *)
  sendReloadSignal : option string;
  reloadDoneCh : time.Fires;
  reloaded : Config;
  coin : bool;
  (* deactivation and identity *)
  cdUID : string;
  FetchResolverConfig : option ResolverConfig * option string;
  Decode : string + deactivationRequest;
  (* interface *)
  Interactive : bool;
  csSetDnsDone : time.Fires;
  csSetDnsOk : bool;
  iface : string;
  (* logs *)
  logContent : string * option string;
  SendLogs : option string;
  Now : Z;
  NowAfter : Z
}.

(** The state a handler runs in. *)
Record World := mkWorld {
  w : http.ResponseWriter Body;
  cfg : Config;                 (* p.cfg, guarded by p.mu *)
  internalLogSent : Z;          (* p.internalLogSent *)
  cdDeactivationPin : PinCode;  (* the process-wide PIN cache *)
  trace : list Event;
  waited : Z                    (* time spent blocked on channels *)
}.

(** A handler either returns with a new state or blocks for ever. *)
Definition M (A : Type) : Type := World → option (A * World).

Definition ret {A} (a : A) : M A := λ s, Some (a, s).
Definition bind {A B} (m : M A) (k : A → M B) : M B :=
  λ s, match m s with
       | Some (a, s') => k a s'
       | None => None
       end.

Notation "x <- m ;; k" := (bind m (λ x, k))
  (at level 100, m at next level, right associativity).
Notation "m ;;; k" := (bind m (λ _, k))
  (at level 100, right associativity).

Definition emit (e : Event) : M unit := λ s,
  Some (tt, mkWorld (w s) (cfg s) (internalLogSent s) (cdDeactivationPin s)
                    (trace s ++ [e]) (waited s)).

Definition onWriter (f : http.ResponseWriter Body → http.ResponseWriter Body) : M unit :=
  λ s, Some (tt, mkWorld (f (w s)) (cfg s) (internalLogSent s) (cdDeactivationPin s)
                         (trace s) (waited s)).

Definition WriteHeader (code : Z) : M unit := onWriter (http.WriteHeader code).
Definition Write (b : Body) : M unit := onWriter (http.Write b).

Definition newline : string := String (Ascii.ascii_of_nat 10%nat) EmptyString.

(** [http.Error(w, msg, code)] *)
Definition Error (msg : string) (code : Z) : M unit :=
  onWriter (http.setContentType "text/plain; charset=utf-8") ;;;
  WriteHeader code ;;;
  Write (Text (msg +:+ newline)).

(** *** /deactivation *)

Definition storePin (pin : PinCode) : M unit := λ s,
  Some (tt, mkWorld (w s) (cfg s) (internalLogSent s) pin (trace s) (waited s)).

Definition loadPin : M PinCode := λ s, Some (cdDeactivationPin s, s).

(** Modelled from the spec: the helper [deactivationPinNotSet] is
    called by the handler but defined in another file of the package.
    The design document, step 3 of the deactivation handler: "If the
    cached PIN equals the "unset" sentinel, allow unconditionally". *)
Definition deactivationPinNotSet : M bool :=
  pin <- loadPin ;;
  ret (bool_decide (pin = defaultDeactivationPin)).

Definition deactivationHandler (env : Env) : M unit :=
  (* Non-cd mode always allowing deactivation. *)
  if bool_decide (cdUID env = EmptyString) then
    WriteHeader http.StatusOK
  else
    (* Re-fetch pin code from API. *)
    emit (EvFetchResolverConfig (cdUID env)) ;;;
    match fst (FetchResolverConfig env) with
    | Some rc =>
        match DeactivationPin rc with
        | Some pin => storePin pin
        | None => storePin defaultDeactivationPin
        end
    | None => ret tt
    end ;;;
    (* If pin code not set, allowing deactivation. *)
    notSet <- deactivationPinNotSet ;;
    if notSet : bool then
      WriteHeader http.StatusOK
    else
      match Decode env with
      | inl _ => WriteHeader http.StatusPreconditionFailed
      | inr req =>
          cached <- loadPin ;;
          let code :=
            if bool_decide (Pin req = cached) then http.StatusOK
            else if bool_decide (Pin req = defaultDeactivationPin) then
              (* the pin code was set, but users do not provide --pin *)
              http.StatusBadRequest
            else http.StatusForbidden in
          WriteHeader code
      end.

(** *** /clients *)

Definition setQueryCount (n : Z) (client : Client) : Client :=
  mkClient (IP client) (Mac client) (Hostname client) n (IncludeQueryCount client).

Definition setIncludeQueryCount (b : bool) (client : Client) : Client :=
  mkClient (IP client) (Mac client) (Hostname client) (QueryCount client) b.

(** The body of the loop over the clients.  The slice holds pointers,
    so what the loop assigns is what the encoder sees.  The registry is
    asked with [client.IP.String()], the MAC and the host name;
    [GetMetric] takes the address itself. *)
Definition enrich (env : Env) (client : Client) : Client :=
  let client := setIncludeQueryCount true client in
  match GetMetric env (IP client) (Mac client) (Hostname client) with
  | MetricLookupFailed _ => client          (* continue *)
  | MetricWriteFailed _ => client
  | MetricCounter value => setQueryCount value client
  end.

(** [json.NewEncoder(w).Encode(v)]: the error it returns, if any. *)
Definition jsonEncode (env : Env) (v : Body) : M (option string) :=
  match Encode env with
  | EncodeOk => Write v ;;; ret None
  | EncodeMarshalError err => ret (Some err)
  | EncodeWriteError err => WriteHeader http.StatusOK ;;; ret (Some err)
  end.

Definition listClientsHandler (env : Env) : M unit :=
  emit EvListClients ;;;
  let clients := sort.Slice (λ a b, netip.Less (IP a) (IP b)) (ListClients env) in
  let clients :=
    if metricsQueryStats env then enrich env <$> clients else clients in
  err <- jsonEncode env (JsonClients clients) ;;
  match err with
  | Some err => Error err http.StatusInternalServerError
  | None => ret tt
  end.

(** *** /started *)

Definition select (ch : string) (fires : time.Fires) (d : Z) (env : Env)
  : M time.Selected := λ s,
  let '(sel, t) := time.selectAfter fires d (coin env) in
  Some (sel, mkWorld (w s) (cfg s) (internalLogSent s) (cdDeactivationPin s)
                     (trace s ++ [EvSelect ch d]) (waited s + t)).

(** [<-ch] with no other case: returns when the channel is ready, and
    never when it never is. *)
Definition recv (ch : string) (fires : time.Fires) : M unit := λ s,
  match fires with
  | Some t =>
      Some (tt, mkWorld (w s) (cfg s) (internalLogSent s) (cdDeactivationPin s)
                        (trace s ++ [EvRecv ch]) (waited s + t))
  | None => None
  end.

Definition startedTimeout : Z := 10 * time.Second.

Definition startedHandler (env : Env) : M unit :=
  sel <- select "onStartedDone" (onStartedDone env) startedTimeout env ;;
  match sel with
  | time.Received => WriteHeader http.StatusOK
  | time.TimedOut => WriteHeader http.StatusRequestTimeout
  end.

(** *** /reload *)

Definition getCfg : M Config := λ s, Some (cfg s, s).

(** The daemon goroutine runs between the two critical sections of
    the handler and may replace [p.cfg]: [reloaded env] is the
    configuration the handler finds there when it takes the lock
    again. *)
Definition daemon (env : Env) : M unit := λ s,
  Some (tt, mkWorld (w s) (reloaded env) (internalLogSent s) (cdDeactivationPin s)
                    (trace s) (waited s)).

(** [for k, v := range p.cfg.Listener { listeners[k] = &ctrld.ListenerConfig{IP: v.IP, Port: v.Port} }],
    over the entries in the order the map is ranged. *)
Definition snapshotListeners (entries : list (string * ctrld.ListenerConfig))
  : gmap string ctrld.ListenerConfig :=
  fold_left (λ listeners kv, <[kv.1 := ctrld.mkListener (ctrld.IP kv.2) (ctrld.Port kv.2)]> listeners)
            entries ∅.

(** The first check of the handler, over the entries of the live map
    in the order it is ranged: [true] when the loop returns early. *)
Fixpoint listenerChanged (listeners : gmap string ctrld.ListenerConfig)
    (entries : list (string * ctrld.ListenerConfig)) : bool :=
  match entries with
  | [] => false
  | (k, v) :: rest =>
      match listeners !! k with
      | None => true                                         (* l == nil *)
      | Some l =>
          if bool_decide (ctrld.IP l ≠ ctrld.IP v) || bool_decide (ctrld.Port l ≠ ctrld.Port v)
          then true
          else listenerChanged listeners rest
      end
  end.

Definition reloadTimeout : Z := 5 * time.Second.

Definition reloadHandler (env : Env) : M unit :=
  emit EvLock ;;;
  c <- getCfg ;;
  let listeners := snapshotListeners (map_to_list (Listener c)) in
  let oldSvc := Service c in
  emit EvUnlock ;;;
  emit EvSendReloadSignal ;;;
  match sendReloadSignal env with
  | Some err => Error err http.StatusInternalServerError
  | None =>
      sel <- select "reloadDoneCh" (reloadDoneCh env) reloadTimeout env ;;
      match sel with
      | time.TimedOut =>
          Error "timeout waiting for ctrld reload" http.StatusInternalServerError
      | time.Received =>
          daemon env ;;;
          emit EvLock ;;;
          c' <- getCfg ;;
          (* 1. Listener config ip or port changes. *)
          (if listenerChanged listeners (map_to_list (Listener c')) then
             WriteHeader http.StatusCreated
           (* 2. Service config changes. *)
           else if negb (DeepEqual oldSvc (Service c')) then
             WriteHeader http.StatusCreated
           (* Otherwise, reload is done. *)
           else WriteHeader http.StatusOK) ;;;
          emit EvUnlock                                      (* deferred *)
      end
  end.

(** *** /cd *)

Definition cdHandler (env : Env) : M unit :=
  if negb (bool_decide (cdUID env = EmptyString)) then
    WriteHeader http.StatusOK ;;;
    Write (Text (cdUID env))
  else WriteHeader http.StatusBadRequest.

(** *** /iface *)

Definition ifaceHandler (env : Env) : M unit :=
  (* p.setDNS is only called when running as a service *)
  if negb (Interactive env) then
    recv "csSetDnsDone" (csSetDnsDone env) ;;;
    if csSetDnsOk env then Write (Text (iface env))
    else WriteHeader http.StatusBadRequest
  else WriteHeader http.StatusBadRequest.

(** *** /logs/view *)

Definition len (data : string) : Z := Z.of_nat (String.length data).

Definition viewLogsHandler (env : Env) : M unit :=
  emit EvLogContent ;;;
  let '(data, err) := logContent env in
  match err with
  | Some err => Error err http.StatusBadRequest
  | None =>
      if len data =? 0 then WriteHeader http.StatusMovedPermanently
      else
        err <- jsonEncode env (JsonLogView data) ;;
        match err with
        | Some err => Error err http.StatusInternalServerError
        | None => ret tt
        end
  end.

(** *** /logs/send *)

Definition getInternalLogSent : M Z := λ s, Some (internalLogSent s, s).

Definition setInternalLogSent (t : Z) : M unit := λ s,
  Some (tt, mkWorld (w s) (cfg s) t (cdDeactivationPin s) (trace s) (waited s)).

(** [time.Since(t)], the clock reading [Now env]. *)
Definition Since (env : Env) (t : Z) : M Z :=
  emit EvNow ;;; ret (time.Sub (Now env) t).

Definition sendLogsHandler (env : Env) : M unit :=
  last <- getInternalLogSent ;;
  since <- Since env last ;;
  if since <? logSentInterval then WriteHeader http.StatusServiceUnavailable
  else
    emit EvLogContent ;;;
    let '(data, err) := logContent env in
    match err with
    | Some err => Error err http.StatusBadRequest
    | None =>
        if len data =? 0 then WriteHeader http.StatusMovedPermanently
        else
          emit (EvSendLogs (cdUID env) data) ;;;
          resp <- match SendLogs env with
                  | Some err =>
                      WriteHeader http.StatusInternalServerError ;;;
                      ret (JsonLogSent (len data) err)
                  | None =>
                      WriteHeader http.StatusOK ;;;
                      ret (JsonLogSent (len data) EmptyString)
                  end ;;
          err <- jsonEncode env resp ;;
          match err with
          | Some err => Error err http.StatusInternalServerError
          | None => ret tt
          end ;;;
          emit EvNow ;;;
          setInternalLogSent (NowAfter env)
    end.

(** *** Registration and dispatch *)

Definition contentTypeJson : string := "application/json".
Definition listClientsPath : string := "/clients".
Definition startedPath : string := "/started".
Definition reloadPath : string := "/reload".
Definition deactivationPath : string := "/deactivation".
Definition cdPath : string := "/cd".
Definition ifacePath : string := "/iface".
Definition viewLogsPath : string := "/logs/view".
Definition sendLogsPath : string := "/logs/send".

Definition jsonResponse (next : M unit) : M unit :=
  onWriter (http.setContentType contentTypeJson) ;;;
  next.

(** [s.register(pattern, handler)] *)
Definition register (pattern : string) (handler : M unit)
    (mux : gmap string (M unit)) : gmap string (M unit) :=
  <[pattern := jsonResponse handler]> mux.

Definition registerControlServerHandler (env : Env) : gmap string (M unit) :=
  register sendLogsPath (sendLogsHandler env)
 (register viewLogsPath (viewLogsHandler env)
 (register ifacePath (ifaceHandler env)
 (register cdPath (cdHandler env)
 (register deactivationPath (deactivationHandler env)
 (register reloadPath (reloadHandler env)
 (register startedPath (startedHandler env)
 (register listClientsPath (listClientsHandler env) ∅))))))).

(** The mux: a registered path runs its handler, any other path gets
    [http.NotFound]. *)
Definition ServeHTTP (env : Env) (path : string) : M unit :=
  match registerControlServerHandler env !! path with
  | Some handler => handler
  | None => Error "404 page not found" 404
  end.

(** One request against the process state of [s]: a fresh writer, an
    empty trace.  [None] when the handler never returns. *)
Definition fresh (s : World) : World :=
  mkWorld http.newWriter (cfg s) (internalLogSent s) (cdDeactivationPin s) [] 0.

Definition serve (env : Env) (path : string) (s : World) : option World :=
  snd <$> ServeHTTP env path (fresh s).

Definition statusOf (r : option World) : option Z :=
  (λ s, http.status (w s)) <$> r.

End ControlServer.

(** ** strings: prefixes and suffixes *)

Module strings.

(** [s[i:j]] *)
Definition slice (s : string) (i j : nat) : string :=
  String.substring i (j - i) s.

Definition HasPrefix (s prefix : string) : bool :=
  (String.length prefix <=? String.length s)%nat
  && String.eqb (slice s 0 (String.length prefix)) prefix.

Definition HasSuffix (s suffix : string) : bool :=
  (String.length suffix <=? String.length s)%nat
  && String.eqb (slice s (String.length s - String.length suffix) (String.length s))
                suffix.

Definition TrimPrefix (s prefix : string) : string :=
  if HasPrefix s prefix then slice s (String.length prefix) (String.length s) else s.

Definition TrimSuffix (s suffix : string) : string :=
  if HasSuffix s suffix then slice s 0 (String.length s - String.length suffix) else s.

End strings.

(** ** internal/router/dnsmasq: the configuration handed to dnsmasq *)

Module dnsmasq.

Record Upstream := mkUpstream { Ip : string; Port : Z }.

(** How a function of type [(string, error)] ends, [template.Must]
    included. *)
Inductive Result :=
| Ok (text : string)
| Err (err : string)
| Panic.

(** An address of a network interface: a [*net.IPNet], or another
    implementation of [net.Addr]. *)
Inductive Addr (IP : Type) :=
| IPNet (ip : IP)
| OtherAddr.
Global Arguments IPNet {IP} ip.
Global Arguments OtherAddr {IP}.

(** What the package takes from outside: the template engine, two
    methods of [ctrld.Config], the file system and the interfaces of
    the machine. *)
Record Env (Template Config IP : Type) := mkEnv {
  Parse : string → option Template;                  (* template.New("").Parse *)
  Execute : Template → bool → list Upstream → string + string;
                                                     (* tmpl.Execute: error or text *)
  FirstListener : Config → option ctrld.ListenerConfig;
  HasUpstreamSendClientInfo : Config → bool;
  Glob : string → option (list string);              (* filepath.Glob, None on error *)
  InterfaceByName : string → option (list (Addr IP));
                                                     (* net.InterfaceByName, then Addrs() *)
  To4 : IP → option IP;
  IPString : IP → string
}.
Global Arguments Parse {Template Config IP} e.
Global Arguments Execute {Template Config IP} e.
Global Arguments FirstListener {Template Config IP} e.
Global Arguments HasUpstreamSendClientInfo {Template Config IP} e.
Global Arguments Glob {Template Config IP} e.
Global Arguments InterfaceByName {Template Config IP} e.
Global Arguments To4 {Template Config IP} e.
Global Arguments IPString {Template Config IP} e.

Section Conf.

Context {Template Config IP : Type}.
Variable env : Env Template Config IP.

Definition confTmpl (tmplText : string) (upstreams : list Upstream)
    (sendClientInfo : bool) : Result :=
  match Parse env tmplText with
  | None => Panic                                    (* template.Must *)
  | Some tmpl =>
      match Execute env tmpl sendClientInfo upstreams with
      | inl err => Err err
      | inr text => Ok text
      end
  end.

Definition ConfTmpl (tmplText : string) (cfg : Config) : Result :=
  match FirstListener env cfg with
  | None => Err "missing listener"
  | Some listener =>
      let ip := ctrld.IP listener in
      let ip :=
        if String.eqb ip "0.0.0.0" || String.eqb ip "::" || String.eqb ip EmptyString
        then "127.0.0.1" else ip in
      confTmpl tmplText [mkUpstream ip (ctrld.Port listener)]
               (HasUpstreamSendClientInfo env cfg)
  end.

Definition firewallaPrefix : string := "/home/pi/firerouter/etc/dnsmasq.dns.".
Definition firewallaSuffix : string := ".conf".

(** Trim prefix and suffix to get the iface name only. *)
Definition ifaceName (match_ : string) : string :=
  strings.TrimSuffix (strings.TrimPrefix match_ firewallaPrefix) firewallaSuffix.

Definition firewallaUpstreams (port : Z) : list Upstream :=
  match Glob env "/home/pi/firerouter/etc/dnsmasq.dns.*.conf" with
  | None => []
  | Some matches =>
      foldl (λ upstreams match_,
               match InterfaceByName env (ifaceName match_) with
               | Some addrs =>
                   foldl (λ upstreams addr,
                            match addr with
                            | IPNet ip =>
                                match To4 env ip with
                                | Some ip4 =>
                                    upstreams ++ [mkUpstream (IPString env ip4) port]
                                | None => upstreams
                                end
                            | OtherAddr => upstreams
                            end)
                         upstreams addrs
               | None => upstreams
               end)
            [] matches
  end.

Definition FirewallaConfTmpl (tmplText : string) (cfg : Config) : Result :=
  match FirstListener env cfg with
  | Some lc =>
      if String.eqb (ctrld.IP lc) "0.0.0.0" || String.eqb (ctrld.IP lc) EmptyString
      then confTmpl tmplText (firewallaUpstreams (ctrld.Port lc))
                    (HasUpstreamSendClientInfo env cfg)
      else ConfTmpl tmplText cfg
  | None => ConfTmpl tmplText cfg
  end.

End Conf.

End dnsmasq.

(** ** internal/router: set-up and clean-up on DD-WRT *)

Module router.

Definition nvramCtrldSetupKey : string := "ctrld_setup".

(** The calls set-up and clean-up make to the rest of the package, with
    their arguments. *)
Inductive Call :=
| CallNvram (args : list string)
| CallDnsMasqConf
| CallNvramSetupKV
| CallNvramSetKV (m : gmap string string) (setupKey : string)
| CallNvramRestore (m : gmap string string) (setupKey : string)
| CallRestartDNSMasq.

(** Their answers; an error is its message. *)
Record Env := mkEnv {
  nvram : list string → string * option string;
  dnsMasqConf : string * option string;
  nvramSetupKV : gmap string string;
  nvramSetKV : gmap string string → string → option string;
  nvramRestore : gmap string string → string → option string;
  restartDNSMasq : option string
}.

(** A computation that records its calls. *)
Definition R (A : Type) : Type := A * list Call.

Definition ret {A} (a : A) : R A := (a, []).
Definition bind {A B} (m : R A) (k : A → R B) : R B :=
  let '(a, calls) := m in
  let '(b, calls') := k a in
  (b, calls ++ calls').
Definition call {A} (c : Call) (answer : A) : R A := (answer, [c]).

Definition setupDDWrt (env : Env) : R (option string) :=
  bind (call (CallNvram ["get"; nvramCtrldSetupKey])
             (nvram env ["get"; nvramCtrldSetupKey])) (λ got,
  (* Already setup. *)
  if String.eqb got.1 "1" then ret None
  else
    bind (call CallDnsMasqConf (dnsMasqConf env)) (λ conf,
    match conf.2 with
    | Some err => ret (Some err)
    | None =>
        bind (call CallNvramSetupKV (nvramSetupKV env)) (λ nvramKvMap,
        let nvramKvMap := <["dnsmasq_options" := conf.1]> nvramKvMap in
        bind (call (CallNvramSetKV nvramKvMap nvramCtrldSetupKey)
                   (nvramSetKV env nvramKvMap nvramCtrldSetupKey)) (λ err,
        match err with
        | Some err => ret (Some err)
        | None =>
            (* Restart dnsmasq service. *)
            bind (call CallRestartDNSMasq (restartDNSMasq env)) (λ err,
            match err with
            | Some err => ret (Some err)
            | None => ret None
            end)
        end))
    end)).

Definition cleanupDDWrt (env : Env) : R (option string) :=
  (* Restore old configs. *)
  bind (call CallNvramSetupKV (nvramSetupKV env)) (λ kv,
  bind (call (CallNvramRestore kv nvramCtrldSetupKey)
             (nvramRestore env kv nvramCtrldSetupKey)) (λ err,
  match err with
  | Some err => ret (Some err)
  | None =>
      (* Restart dnsmasq service. *)
      bind (call CallRestartDNSMasq (restartDNSMasq env)) (λ err,
      match err with
      | Some err => ret (Some err)
      | None => ret None
      end)
  end)).

End router.

(** ** A concrete daemon *)

(** The service block is a text, compared letter by letter; a PIN is a
    64-bit integer and -1 stands for "unset"; logs are shipped at most
    once a minute. *)
Module Sample.

Definition ServiceConfig : Type := string.
Definition DeepEqual (a b : ServiceConfig) : bool := bool_decide (a = b).
Definition defaultDeactivationPin : Z := -1.
Definition logSentInterval : Z := 60 * time.Second.

Abbreviation Env := (@Env ServiceConfig Z).
Abbreviation World := (@World ServiceConfig Z).
Abbreviation Config := (@Config ServiceConfig).
Abbreviation serve := (serve DeepEqual defaultDeactivationPin logSentInterval).

Definition lan : ctrld.ListenerConfig := ctrld.mkListener "192.168.1.1" 53.
Definition loopback : ctrld.ListenerConfig := ctrld.mkListener "127.0.0.1" 5354.

Definition oneListener : Config :=
  mkConfig {[ "0" := lan ]} "upstream_timeout = 5".
Definition twoListeners : Config :=
  mkConfig {[ "0" := lan; "1" := loopback ]} "upstream_timeout = 5".
Definition movedListener : Config :=
  mkConfig {[ "0" := ctrld.mkListener "192.168.1.1" 5353 ]} "upstream_timeout = 5".
Definition otherService : Config :=
  mkConfig {[ "0" := lan ]} "upstream_timeout = 9".

Definition world (c : Config) (sent : Z) (pin : Z) : World :=
  mkWorld http.newWriter c sent pin [] 0.

Definition alice : Client :=
  mkClient (netip.IPv4 192 168 1 20) "aa:bb:cc:00:00:01" "alice" 0 false.
Definition bob : Client :=
  mkClient (netip.IPv4 192 168 1 3) "aa:bb:cc:00:00:02" "bob" 0 false.
Definition carol : Client :=
  mkClient (netip.IPv4 10 0 0 7) "aa:bb:cc:00:00:03" "carol" 0 false.

(** The registry knows alice (41 queries) and cannot look bob up. *)
Definition registry (ip : netip.Addr) (mac host : string) : Metric :=
  if bool_decide (host = "alice") then MetricCounter 41
  else if bool_decide (host = "bob") then MetricLookupFailed "inconsistent label cardinality"
  else MetricCounter 7.

(** A daemon in which nothing goes wrong: every signal fires at once,
    the remote side is not reachable, the log has one line. *)
Definition calm : Env :=
  {| ListClients := [alice; bob; carol];
     metricsQueryStats := true;
     GetMetric := registry;
     Encode := EncodeOk;
     onStartedDone := Some 0;
     sendReloadSignal := None;
     reloadDoneCh := Some time.Second;
     reloaded := oneListener;
     coin := false;
     cdUID := "p2abcdef";
     FetchResolverConfig := (None, Some "context deadline exceeded");
     Decode := inl "EOF";
     Interactive := false;
     csSetDnsDone := Some 0;
     csSetDnsOk := true;
     iface := "eth0";
     logContent := ("ctrld started", None);
     SendLogs := None;
     Now := 1000 * time.Second;
     NowAfter := 1001 * time.Second |}.

Definition withReload (sig : option string) (done : time.Fires) (c : Config)
    (env : Env) : Env :=
  mkEnv (ListClients env) (metricsQueryStats env) (GetMetric env) (Encode env)
    (onStartedDone env) sig done c (coin env)
    (cdUID env) (FetchResolverConfig env) (Decode env)
    (Interactive env) (csSetDnsDone env) (csSetDnsOk env) (iface env)
    (logContent env) (SendLogs env) (Now env) (NowAfter env).

Definition withDeactivation (uid : string)
    (fetch : option (@ResolverConfig Z) * option string)
    (body : string + @deactivationRequest Z) (env : Env) : Env :=
  mkEnv (ListClients env) (metricsQueryStats env) (GetMetric env) (Encode env)
    (onStartedDone env) (sendReloadSignal env) (reloadDoneCh env) (reloaded env)
    (coin env) uid fetch body
    (Interactive env) (csSetDnsDone env) (csSetDnsOk env) (iface env)
    (logContent env) (SendLogs env) (Now env) (NowAfter env).

Definition withIface (interactive : bool) (done : time.Fires) (ok : bool)
    (env : Env) : Env :=
  mkEnv (ListClients env) (metricsQueryStats env) (GetMetric env) (Encode env)
    (onStartedDone env) (sendReloadSignal env) (reloadDoneCh env) (reloaded env)
    (coin env) (cdUID env) (FetchResolverConfig env) (Decode env)
    interactive done ok (iface env)
    (logContent env) (SendLogs env) (Now env) (NowAfter env).

Definition withLogs (content : string * option string) (send : option string)
    (now nowAfter : Z) (env : Env) : Env :=
  mkEnv (ListClients env) (metricsQueryStats env) (GetMetric env) (Encode env)
    (onStartedDone env) (sendReloadSignal env) (reloadDoneCh env) (reloaded env)
    (coin env) (cdUID env) (FetchResolverConfig env) (Decode env)
    (Interactive env) (csSetDnsDone env) (csSetDnsOk env) (iface env)
    content send now nowAfter.

(** A managed device whose remote side reports the PIN 1234. *)
Definition managed (submitted : string + @deactivationRequest Z) : Env :=
  withDeactivation "p2abcdef" (Some (mkResolverConfig (Some 1234)), None) submitted calm.

(** A device with no identifier. *)
Definition standalone : Env :=
  withDeactivation EmptyString (None, None) (inl "EOF") calm.

End Sample.

(** ** A concrete router *)

Module SampleRouter.

(** A template is its text, the empty text does not parse, and
    executing a template lists the addresses of the upstreams. *)
Definition engine : dnsmasq.Env string (gmap string ctrld.ListenerConfig) (list Z) :=
  {| dnsmasq.Parse := λ text, if String.eqb text EmptyString then None else Some text;
     dnsmasq.Execute := λ tmpl sendClientInfo upstreams,
       inr (String.concat "," (dnsmasq.Ip <$> upstreams));
     dnsmasq.FirstListener := λ cfg, cfg !! "0";
     dnsmasq.HasUpstreamSendClientInfo := λ cfg, true;
     dnsmasq.Glob := λ pattern,
       Some ["/home/pi/firerouter/etc/dnsmasq.dns.br0.conf";
             "/home/pi/firerouter/etc/dnsmasq.dns.br9.conf"];
     dnsmasq.InterfaceByName := λ name,
       if String.eqb name "br0"
       then Some [dnsmasq.OtherAddr; dnsmasq.IPNet [192; 168; 218; 1];
                  dnsmasq.IPNet [254; 128; 0; 0; 0; 0; 0; 0; 0; 0; 0; 0; 0; 0; 0; 1]]
       else None;
     dnsmasq.To4 := λ ip, if bool_decide (length ip = 4%nat) then Some ip else None;
     dnsmasq.IPString := λ ip,
       if bool_decide (ip = [192; 168; 218; 1]) then "192.168.218.1" else "?" |}.

Definition anyAddress : gmap string ctrld.ListenerConfig :=
  {[ "0" := ctrld.mkListener "0.0.0.0" 53 ]}.
Definition anyAddress6 : gmap string ctrld.ListenerConfig :=
  {[ "0" := ctrld.mkListener "::" 5354 ]}.

(** A DD-WRT box that is not set up yet and on which every step
    passes. *)
Definition box : router.Env :=
  {| router.nvram := λ args, (EmptyString, None);
     router.dnsMasqConf := ("no-resolv", None);
     router.nvramSetupKV :=
       {[ "dns_dnsmasq" := "1"; "dnsmasq_options" := EmptyString;
          "dns_crypt" := "0"; "dnssec" := "0" ]};
     router.nvramSetKV := λ m key, None;
     router.nvramRestore := λ m key, None;
     router.restartDNSMasq := None |}.

End SampleRouter.

(** ** The vocabulary of the properties *)

(** [notAfter less a b]: [b] is not less than [a], so [a] may stand
    before [b] in a sorted slice. *)
Definition notAfter {A : Type} (less : A → A → bool) (a b : A) : Prop :=
  less b a = false.

(** Ascending by IP: no client sorts before the one listed before it. *)
Definition byIP : relation Client :=
  notAfter (λ a b, netip.Less (IP a) (IP b)).

Section Vocabulary.

Context {ServiceConfig : Type}.
Variable DeepEqual : ServiceConfig → ServiceConfig → bool.
Context {PinCode : Type} `{EqDecision PinCode}.
Variable defaultDeactivationPin : PinCode.

Local Abbreviation Env := (@Env ServiceConfig PinCode).
Local Abbreviation World := (@World ServiceConfig PinCode).

(** The PIN cache once the handler has asked the remote side: the PIN
    it reports, the reserved value when it reports none, the old cache
    when it cannot be reached. *)
Definition refreshed (env : Env) (s : World) : PinCode :=
  match fst (FetchResolverConfig env) with
  | Some rc => default defaultDeactivationPin (DeactivationPin rc)
  | None => cdDeactivationPin s
  end.

(** The decision table of the design document, section 4.6, read
    top to bottom. *)
Definition deactivationTable (env : Env) (s : World) : Z :=
  if decide (cdUID env = EmptyString) then 200
  else if decide (refreshed env s = defaultDeactivationPin) then 200
  else match Decode env with
       | inl _ => 412
       | inr req =>
           if decide (Pin req = refreshed env s) then 200
           else if decide (Pin req = defaultDeactivationPin) then 400
           else 403
       end.

(** A live entry the snapshot does not account for: it is absent from
    the snapshot, or its address or port is not the one recorded. *)
Definition unaccounted (listeners : gmap string ctrld.ListenerConfig)
    (k : string) (v : ctrld.ListenerConfig) : Prop :=
  listeners !! k = None ∨
  ∃ l, listeners !! k = Some l ∧ (ctrld.IP l ≠ ctrld.IP v ∨ ctrld.Port l ≠ ctrld.Port v).

(** The snapshot the handler takes of the listeners, and the live
    map it compares it with after the reload. *)
Definition snapshot (s : World) : gmap string ctrld.ListenerConfig :=
  snapshotListeners (map_to_list (Listener (cfg s))).

Definition live (env : Env) : gmap string ctrld.ListenerConfig :=
  Listener (reloaded env).

(** No entry is missing on either side, and the entries under one
    name agree on address and port. *)
Definition listenersMatch (listeners current : gmap string ctrld.ListenerConfig) : Prop :=
  (∀ k, is_Some (listeners !! k) ↔ is_Some (current !! k)) ∧
  (∀ k l v, listeners !! k = Some l → current !! k = Some v →
            ctrld.IP l = ctrld.IP v ∧ ctrld.Port l = ctrld.Port v).

(** What the verification step answers. *)
Definition reloadVerdict (env : Env) (s : World) : Z :=
  if listenerChanged (snapshot s) (map_to_list (live env)) then 201
  else if negb (DeepEqual (Service (cfg s)) (Service (reloaded env))) then 201
  else 200.

Definition reloadTrace : list Event :=
  [EvLock; EvUnlock; EvSendReloadSignal; EvSelect "reloadDoneCh" reloadTimeout].

(** The records of a client table as the listing shows them: with
    the query counts filled in when the flag is on, as they are
    otherwise. *)
Definition shown (env : Env) (table : list Client) : list Client :=
  if metricsQueryStats env then enrich env <$> table else table.

End Vocabulary.

(** The discipline of [p.mu] along a trace: the lock is not taken
    twice, not released unless held, not held at the end, and never
    held across a call that blocks or leaves the process. *)
Fixpoint disciplined (held : bool) (tr : list Event) : bool :=
  match tr with
  | [] => negb held
  | EvLock :: tr => negb held && disciplined true tr
  | EvUnlock :: tr => held && disciplined false tr
  | EvSendReloadSignal :: tr
  | EvSelect _ _ :: tr
  | EvRecv _ :: tr
  | EvFetchResolverConfig _ :: tr
  | EvSendLogs _ _ :: tr => negb held && disciplined held tr
  | _ :: tr => disciplined held tr
  end.

(** The addresses [netip] builds: only an IPv6 address has a zone. *)
Definition zoneOnlyOn6 (ip : netip.Addr) : Prop :=
  netip.Is6 ip = false → netip.Zone ip = EmptyString.

Section MoreVocabulary.

Context {ServiceConfig PinCode : Type}.

Local Abbreviation Env := (@Env ServiceConfig PinCode).
Local Abbreviation World := (@World ServiceConfig PinCode).

(** The same daemon, its client table handed over in another order. *)
Definition handingOver (clients : list Client) (env : Env) : Env :=
  mkEnv clients (metricsQueryStats env) (GetMetric env) (Encode env)
    (onStartedDone env) (sendReloadSignal env) (reloadDoneCh env) (reloaded env)
    (coin env) (cdUID env) (FetchResolverConfig env) (Decode env)
    (Interactive env) (csSetDnsDone env) (csSetDnsOk env) (iface env)
    (logContent env) (SendLogs env) (Now env) (NowAfter env).

(** The paths [registerControlServerHandler] registers. *)
Definition registered : list string :=
  [listClientsPath; startedPath; reloadPath; deactivationPath; cdPath;
   ifacePath; viewLogsPath; sendLogsPath].

(** What the client can tell the kind of a response by: it is JSON, or
    it is the plain text of [http.Error] under an error status. *)
Definition typedResponse (s : World) : Prop :=
  http.contentType (w s) = contentTypeJson ∨
  (http.contentType (w s) = "text/plain; charset=utf-8" ∧
   400 ≤ http.status (w s) ∧
   ∃ msg, last (http.written (w s)) = Some (Text (msg +:+ newline))).

(** The process state a handler may change, apart from the writer. *)
Definition sameProcess (s s' : World) : Prop :=
  cfg s' = cfg s ∧ internalLogSent s' = internalLogSent s ∧
  cdDeactivationPin s' = cdDeactivationPin s.

End MoreVocabulary.

(** ** Facts about the library models *)

Section SliceFacts.
Context {A : Type} (less : A → A → bool).

Local Abbreviation notAfter := (notAfter less).

Hypothesis less_asym : ∀ a b, less a b = true → less b a = false.

Lemma sink_perm (x : A) (before : list A) : sort.sink less x before ≡ₚ x :: before.
Proof.
  induction before as [|y before IH]; simpl; [done|].
  destruct (less x y); [|done]. rewrite IH. apply Permutation_swap.
Qed.

Lemma sink_head (x y : A) (before : list A) :
  Sorted (flip notAfter) (y :: before) → less x y = true →
  HdRel (flip notAfter) y (sort.sink less x before).
Proof.
  intros Hs Hxy. destruct before as [|z before]; simpl.
  - constructor. unfold flip, notAfter. by apply less_asym.
  - destruct (less x z).
    + constructor. apply Sorted_inv in Hs as [_ Hhd]. by inversion Hhd.
    + constructor. unfold flip, notAfter. by apply less_asym.
Qed.

Lemma sink_sorted (x : A) (before : list A) :
  Sorted (flip notAfter) before → Sorted (flip notAfter) (sort.sink less x before).
Proof.
  induction before as [|y before IH]; intros Hs; simpl.
  - by repeat constructor.
  - destruct (less x y) eqn:Hxy.
    + constructor; [|by apply sink_head].
      apply IH. by apply Sorted_inv in Hs as [? _].
    + constructor; [done|]. constructor. done.
Qed.

Lemma insertion_perm (x acc : list A) :
  fold_left (λ sorted e, sort.sink less e sorted) x acc ≡ₚ x ++ acc.
Proof.
  revert acc. induction x as [|e x IH]; intros acc; simpl; [done|].
  rewrite IH, sink_perm. by rewrite Permutation_middle.
Qed.

Lemma insertion_sorted (x acc : list A) :
  Sorted (flip notAfter) acc →
  Sorted (flip notAfter) (fold_left (λ sorted e, sort.sink less e sorted) x acc).
Proof.
  revert acc. induction x as [|e x IH]; intros acc Hs; simpl; [done|].
  by apply IH, sink_sorted.
Qed.

Lemma Slice_perm (x : list A) : sort.Slice less x ≡ₚ x.
Proof.
  unfold sort.Slice. rewrite reverse_Permutation, insertion_perm.
  by rewrite app_nil_r.
Qed.

Lemma Slice_sorted (x : list A) : Sorted notAfter (sort.Slice less x).
Proof.
  unfold sort.Slice.
  apply (Sorted_reverse (flip notAfter)), insertion_sorted. constructor.
Qed.
End SliceFacts.

Section AddrFacts.

Lemma string_compare_le_trans (s1 s2 s3 : string) :
  String.compare s1 s2 ≠ Gt → String.compare s2 s3 ≠ Gt →
  String.compare s1 s3 ≠ Gt.
Proof.
  revert s2 s3. induction s1 as [|a s1 IH]; intros [|b s2] [|c s3]; simpl; try done.
  unfold Ascii.compare.
  destruct (N.compare_spec (Ascii.N_of_ascii a) (Ascii.N_of_ascii b)) as [Hab|Hab|Hab];
    destruct (N.compare_spec (Ascii.N_of_ascii b) (Ascii.N_of_ascii c)) as [Hbc|Hbc|Hbc];
    destruct (N.compare_spec (Ascii.N_of_ascii a) (Ascii.N_of_ascii c)) as [Hac|Hac|Hac];
    try done; try lia.
  apply IH.
Qed.

Lemma Less_asym (a b : netip.Addr) :
  netip.Less a b = true → netip.Less b a = false.
Proof.
  unfold netip.Less, netip.Compare, netip.Is6.
  rewrite (String.compare_antisym (netip.Zone b) (netip.Zone a)).
  destruct (Z.ltb_spec (netip.BitLen a) (netip.BitLen b));
    destruct (Z.ltb_spec (netip.BitLen b) (netip.BitLen a)); try lia; try done.
  destruct (Z.ltb_spec (netip.hi a) (netip.hi b));
    destruct (Z.ltb_spec (netip.hi b) (netip.hi a)); try lia; try done.
  destruct (Z.ltb_spec (netip.lo a) (netip.lo b));
    destruct (Z.ltb_spec (netip.lo b) (netip.lo a)); try lia; try done.
  replace (netip.BitLen b) with (netip.BitLen a) by lia.
  destruct (netip.BitLen a =? 128); [|done].
  by destruct (String.compare (netip.Zone a) (netip.Zone b)).
Qed.

Lemma Less_notAfter_trans (a b c : netip.Addr) :
  netip.Less b a = false → netip.Less c b = false → netip.Less c a = false.
Proof.
  unfold netip.Less, netip.Compare, netip.Is6.
  pose proof (string_compare_le_trans (netip.Zone a) (netip.Zone b) (netip.Zone c)) as Hz.
  rewrite (String.compare_antisym (netip.Zone b) (netip.Zone a)).
  rewrite (String.compare_antisym (netip.Zone c) (netip.Zone b)).
  rewrite (String.compare_antisym (netip.Zone c) (netip.Zone a)).
  destruct (Z.ltb_spec (netip.BitLen b) (netip.BitLen a)); [done|].
  destruct (Z.ltb_spec (netip.BitLen c) (netip.BitLen b)); [done|].
  destruct (Z.ltb_spec (netip.BitLen c) (netip.BitLen a)); [lia|].
  destruct (Z.ltb_spec (netip.BitLen a) (netip.BitLen b));
    destruct (Z.ltb_spec (netip.BitLen b) (netip.BitLen c));
    destruct (Z.ltb_spec (netip.BitLen a) (netip.BitLen c)); try lia; try done.
  destruct (Z.ltb_spec (netip.hi b) (netip.hi a)); [done|].
  destruct (Z.ltb_spec (netip.hi c) (netip.hi b)); [done|].
  destruct (Z.ltb_spec (netip.hi c) (netip.hi a)); [lia|].
  destruct (Z.ltb_spec (netip.hi a) (netip.hi b));
    destruct (Z.ltb_spec (netip.hi b) (netip.hi c));
    destruct (Z.ltb_spec (netip.hi a) (netip.hi c)); try lia; try done.
  destruct (Z.ltb_spec (netip.lo b) (netip.lo a)); [done|].
  destruct (Z.ltb_spec (netip.lo c) (netip.lo b)); [done|].
  destruct (Z.ltb_spec (netip.lo c) (netip.lo a)); [lia|].
  destruct (Z.ltb_spec (netip.lo a) (netip.lo b));
    destruct (Z.ltb_spec (netip.lo b) (netip.lo c));
    destruct (Z.ltb_spec (netip.lo a) (netip.lo c)); try lia; try done.
  replace (netip.BitLen b) with (netip.BitLen a) by lia.
  replace (netip.BitLen c) with (netip.BitLen a) by lia.
  destruct (netip.BitLen a =? 128); [|done].
  destruct (String.compare (netip.Zone a) (netip.Zone b)) eqn:Hab;
    destruct (String.compare (netip.Zone b) (netip.Zone c)) eqn:Hbc;
    destruct (String.compare (netip.Zone a) (netip.Zone c)) eqn:Hac;
    simpl; try done; exfalso; by apply Hz.
Qed.

Lemma Less_neither (a b : netip.Addr) :
  zoneOnlyOn6 a → zoneOnlyOn6 b →
  netip.Less a b = false → netip.Less b a = false → a = b.
Proof.
  destruct a as [la ha loa za], b as [lb hb lob zb].
  unfold zoneOnlyOn6, netip.Less, netip.Compare, netip.Is6; simpl.
  intros Hza Hzb.
  rewrite (String.compare_antisym zb za).
  destruct (Z.ltb_spec la lb); [done|]. destruct (Z.ltb_spec lb la); [done|].
  assert (la = lb) as -> by lia.
  destruct (Z.ltb_spec ha hb); [done|]. destruct (Z.ltb_spec hb ha); [done|].
  assert (ha = hb) as -> by lia.
  destruct (Z.ltb_spec loa lob); [done|]. destruct (Z.ltb_spec lob loa); [done|].
  assert (loa = lob) as -> by lia.
  destruct (lb =? 128) eqn:H6.
  - destruct (String.compare za zb) eqn:Hz; simpl; try done.
    apply String.compare_eq_iff in Hz. by subst.
  - intros _ _. by rewrite Hza, Hzb.
Qed.

End AddrFacts.

(** ** Properties *)

Section Properties.

Context {ServiceConfig : Type}.
Variable DeepEqual : ServiceConfig → ServiceConfig → bool.
Context {PinCode : Type} `{EqDecision PinCode}.
Variable defaultDeactivationPin : PinCode.
Variable logSentInterval : Z.

Local Abbreviation Env := (@Env ServiceConfig PinCode).
Local Abbreviation World := (@World ServiceConfig PinCode).
Local Abbreviation serve := (serve DeepEqual defaultDeactivationPin logSentInterval).
Local Abbreviation ServeHTTP := (ServeHTTP DeepEqual defaultDeactivationPin logSentInterval).
Local Abbreviation refreshed := (refreshed defaultDeactivationPin).
Local Abbreviation deactivationTable := (deactivationTable defaultDeactivationPin).
Local Abbreviation reloadVerdict := (reloadVerdict DeepEqual).

(** *** Dispatch *)

Lemma ServeHTTP_deactivation (env : Env) :
  ServeHTTP env deactivationPath
  = jsonResponse (deactivationHandler defaultDeactivationPin env).
Proof. reflexivity. Qed.

Lemma ServeHTTP_reload (env : Env) :
  ServeHTTP env reloadPath = jsonResponse (reloadHandler DeepEqual env).
Proof. reflexivity. Qed.

Lemma ServeHTTP_listClients (env : Env) :
  ServeHTTP env listClientsPath = jsonResponse (listClientsHandler env).
Proof. reflexivity. Qed.

Lemma ServeHTTP_started (env : Env) :
  ServeHTTP env startedPath = jsonResponse (startedHandler env).
Proof. reflexivity. Qed.

Lemma ServeHTTP_iface (env : Env) :
  ServeHTTP env ifacePath = jsonResponse (ifaceHandler env).
Proof. reflexivity. Qed.

Lemma ServeHTTP_viewLogs (env : Env) :
  ServeHTTP env viewLogsPath = jsonResponse (viewLogsHandler env).
Proof. reflexivity. Qed.

Lemma ServeHTTP_cd (env : Env) :
  ServeHTTP env cdPath = jsonResponse (cdHandler env).
Proof. reflexivity. Qed.

Lemma ServeHTTP_sendLogs (env : Env) :
  ServeHTTP env sendLogsPath = jsonResponse (sendLogsHandler logSentInterval env).
Proof. reflexivity. Qed.

(** Unfolds the monad of a handler applied to a state. *)
Ltac step :=
  unfold jsonResponse, Error, WriteHeader, Write, onWriter, emit, bind, ret,
    storePin, loadPin, getCfg, daemon, getInternalLogSent, setInternalLogSent,
    Since, fresh; simpl.

(** Closes a goal [∃ s', Some _ = Some s' ∧ ...] once the handler has run. *)
Ltac ran :=
  eexists; split; [reflexivity|]; simpl; repeat split; intros; try done; try lia.

(** *** /deactivation *)

Lemma deactivation_run (env : Env) (s : World) :
  ∃ s', serve env deactivationPath s = Some s' ∧
    http.status (w s') = deactivationTable env s ∧
    cdDeactivationPin s' =
      (if decide (cdUID env = EmptyString) then cdDeactivationPin s
       else refreshed env s).
Proof.
  unfold serve. rewrite ServeHTTP_deactivation.
  unfold deactivationHandler, deactivationPinNotSet, deactivationTable, refreshed.
  case_bool_decide as Huid; destruct (decide (cdUID env = EmptyString)); try done.
  { step. eauto. }
  destruct (FetchResolverConfig env) as [[[[pin|]]|] e]; step.
  all: case_bool_decide as Hset; case_decide; try done; simpl; eauto.
  all: destruct (Decode env) as [err|req]; simpl; eauto.
  all: repeat (case_bool_decide; case_decide; try done; simpl; eauto).
Qed.

(** C1. A deactivation request is answered 200 when no device
    identifier is configured, whatever the body.  Otherwise the PIN is
    refreshed from the remote side (best effort) and the request is
    answered 200 when the cached PIN is then the "unset" value;
    otherwise 412 for a body that does not decode, 200 for the cached
    PIN, 400 for the "unset" value and 403 for any other PIN. *)
Theorem deactivation_decision_table (env : Env) (s : World) :
  ∃ s', serve env deactivationPath s = Some s' ∧
    let code := http.status (w s') in
    (cdUID env = EmptyString → code = 200) ∧
    (cdUID env ≠ EmptyString →
       let cached := cdDeactivationPin s' in
       cached = refreshed env s ∧
       (cached = defaultDeactivationPin → code = 200) ∧
       (cached ≠ defaultDeactivationPin →
          (∀ err, Decode env = inl err → code = 412) ∧
          (∀ req, Decode env = inr req → Pin req = cached → code = 200) ∧
          (∀ req, Decode env = inr req →
                  Pin req = defaultDeactivationPin → code = 400) ∧
          (∀ req, Decode env = inr req → Pin req ≠ cached →
                  Pin req ≠ defaultDeactivationPin → code = 403))).
Proof.
  destruct (deactivation_run env s) as (s' & Hrun & Hcode & Hpin).
  exists s'. split; [done|]. cbn zeta. rewrite Hcode. unfold deactivationTable.
  split.
  - intros Huid. by rewrite decide_True.
  - intros Huid. rewrite decide_False in Hpin by done. rewrite Hpin.
    rewrite (decide_False (P := cdUID env = EmptyString)) by done.
    split; [done|]. split.
    + intros Hc. by rewrite decide_True.
    + intros Hc. rewrite decide_False by done.
      repeat split; intros * Hdec; rewrite Hdec.
      * done.
      * intros Heq. by rewrite decide_True.
      * intros Heq. rewrite decide_False by congruence. by rewrite decide_True.
      * intros Hne1 Hne2. by rewrite !decide_False.
Qed.

(** *** /reload *)

Lemma selectAfter_before (t d : Z) (c : bool) :
  t < d → time.selectAfter (Some t) d c = (time.Received, t).
Proof. intros Hlt. unfold time.selectAfter. by rewrite (proj2 (Z.ltb_lt t d)). Qed.

Lemma selectAfter_after (t d : Z) (c : bool) :
  d < t → time.selectAfter (Some t) d c = (time.TimedOut, d).
Proof.
  intros Hlt. unfold time.selectAfter.
  rewrite (proj2 (Z.ltb_ge t d)) by lia. by rewrite (proj2 (Z.ltb_lt d t)).
Qed.

Lemma selectAfter_bound (ch : time.Fires) (d : Z) (c : bool) :
  (time.selectAfter ch d c).2 ≤ d.
Proof.
  unfold time.selectAfter. destruct ch as [t|]; simpl; [|lia].
  destruct (Z.ltb_spec t d); simpl; [lia|].
  destruct (Z.ltb_spec d t); simpl; [lia|]. destruct c; simpl; lia.
Qed.

(** The snapshot is a copy of the map, in whatever order it is ranged. *)
Lemma snapshotListeners_fold (entries : list (string * ctrld.ListenerConfig))
    (acc : gmap string ctrld.ListenerConfig) :
  NoDup entries.*1 →
  fold_left (λ listeners kv, <[kv.1 := ctrld.mkListener (ctrld.IP kv.2) (ctrld.Port kv.2)]> listeners)
            entries acc
  = list_to_map entries ∪ acc.
Proof.
  revert acc. induction entries as [|[k [ip port]] entries IH]; intros acc Hnd.
  - simpl. by rewrite (left_id_L ∅ (∪)).
  - simpl in Hnd. apply NoDup_cons in Hnd as [Hk Hnd]. simpl. rewrite IH by done.
    apply map_eq; intros k'. rewrite !lookup_union.
    destruct (decide (k = k')) as [<-|Hne].
    + rewrite !lookup_insert_eq.
      rewrite (not_elem_of_list_to_map_1 _ k Hk). by destruct (acc !! k).
    + by rewrite !lookup_insert_ne.
Qed.

Lemma snapshotListeners_copy (m : gmap string ctrld.ListenerConfig) :
  snapshotListeners (map_to_list m) = m.
Proof.
  unfold snapshotListeners.
  rewrite snapshotListeners_fold by apply NoDup_fst_map_to_list.
  rewrite list_to_map_to_list. by rewrite (right_id_L ∅ (∪)).
Qed.

Lemma snapshotListeners_perm (m : gmap string ctrld.ListenerConfig)
    (order : list (string * ctrld.ListenerConfig)) :
  order ≡ₚ map_to_list m → snapshotListeners order = m.
Proof.
  intros Hp. unfold snapshotListeners.
  rewrite snapshotListeners_fold.
  - rewrite (right_id_L ∅ (∪)). symmetry. by apply list_to_map_flip.
  - rewrite Hp. apply NoDup_fst_map_to_list.
Qed.

Lemma listenerChanged_true (listeners : gmap string ctrld.ListenerConfig)
    (entries : list (string * ctrld.ListenerConfig)) :
  listenerChanged listeners entries = true ↔
  ∃ k v, (k, v) ∈ entries ∧ unaccounted listeners k v.
Proof.
  unfold unaccounted. induction entries as [|[k v] entries IH]; simpl.
  - split; [done|]. intros (k & v & Hin & _). by apply elem_of_nil in Hin.
  - destruct (listeners !! k) as [l|] eqn:Hl.
    + destruct (bool_decide (ctrld.IP l ≠ ctrld.IP v) || bool_decide (ctrld.Port l ≠ ctrld.Port v)) eqn:Hb.
      * split; [intros _|done]. exists k, v. split; [left|].
        right. exists l. split; [done|].
        apply orb_true_iff in Hb as [Hb|Hb]; apply bool_decide_eq_true in Hb; auto.
      * apply orb_false_iff in Hb as [Hb1 Hb2].
        apply bool_decide_eq_false in Hb1, Hb2.
        rewrite IH. split.
        -- intros (k' & v' & Hin & Hun). exists k', v'. split; [by right|done].
        -- intros (k' & v' & Hin & Hun). apply elem_of_cons in Hin as [Heq|Hin].
           ++ simplify_eq. destruct Hun as [Hun|(l' & Hl' & Hun)]; [congruence|].
              simplify_eq. tauto.
           ++ exists k', v'. done.
    + split; [intros _|done]. exists k, v. split; [left|]. by left.
Qed.

(** The order in which the live map is ranged does not matter. *)
Lemma listenerChanged_perm (listeners : gmap string ctrld.ListenerConfig)
    (order order' : list (string * ctrld.ListenerConfig)) :
  order ≡ₚ order' →
  listenerChanged listeners order = listenerChanged listeners order'.
Proof.
  intros Hp. apply eq_true_iff_eq. rewrite !listenerChanged_true.
  by setoid_rewrite Hp.
Qed.

Lemma listenerChanged_live (listeners live : gmap string ctrld.ListenerConfig) :
  listenerChanged listeners (map_to_list live) = true ↔
  ∃ k v, live !! k = Some v ∧ unaccounted listeners k v.
Proof.
  rewrite listenerChanged_true.
  by setoid_rewrite elem_of_map_to_list.
Qed.

Lemma listenersMatch_refl (listeners : gmap string ctrld.ListenerConfig) :
  listenersMatch listeners listeners.
Proof. split; [done|]. intros k l v Hl Hv. by simplify_eq. Qed.

Lemma listenersMatch_unchanged (listeners current : gmap string ctrld.ListenerConfig) :
  listenersMatch listeners current →
  listenerChanged listeners (map_to_list current) = false.
Proof.
  intros [Hdom Hsame]. apply not_true_is_false. rewrite listenerChanged_live.
  intros (k & v & Hv & [Hnone|(l & Hl & Hne)]).
  - assert (is_Some (listeners !! k)) as [l Hl] by (apply Hdom; eauto).
    congruence.
  - destruct (Hsame k l v Hl Hv). tauto.
Qed.

Lemma reload_received (env : Env) (s : World) (t : Z) :
  sendReloadSignal env = None →
  time.selectAfter (reloadDoneCh env) reloadTimeout (coin env) = (time.Received, t) →
  serve env reloadPath s
  = Some (mkWorld (http.mkWriter contentTypeJson (Some (reloadVerdict env s)) [])
                  (reloaded env) (internalLogSent s) (cdDeactivationPin s)
                  (reloadTrace ++ [EvLock; EvUnlock]) t).
Proof.
  intros Hsig Hsel. unfold serve. rewrite ServeHTTP_reload.
  unfold reloadHandler, reloadVerdict, snapshot, live. step. rewrite Hsig.
  unfold select. step. rewrite Hsel. step.
  destruct (listenerChanged _ _); [done|].
  by destruct (DeepEqual _ _).
Qed.

Lemma reload_timed_out (env : Env) (s : World) (t : Z) :
  sendReloadSignal env = None →
  time.selectAfter (reloadDoneCh env) reloadTimeout (coin env) = (time.TimedOut, t) →
  serve env reloadPath s
  = Some (mkWorld (http.mkWriter "text/plain; charset=utf-8" (Some 500)
                     [Text ("timeout waiting for ctrld reload" +:+ newline)])
                  (cfg s) (internalLogSent s) (cdDeactivationPin s)
                  reloadTrace t).
Proof.
  intros Hsig Hsel. unfold serve. rewrite ServeHTTP_reload.
  unfold reloadHandler. step. rewrite Hsig.
  unfold select. step. by rewrite Hsel.
Qed.

Lemma reload_not_signalled (env : Env) (s : World) (err : string) :
  sendReloadSignal env = Some err →
  serve env reloadPath s
  = Some (mkWorld (http.mkWriter "text/plain; charset=utf-8" (Some 500)
                     [Text (err +:+ newline)])
                  (cfg s) (internalLogSent s) (cdDeactivationPin s)
                  [EvLock; EvUnlock; EvSendReloadSignal] 0).
Proof.
  intros Hsig. unfold serve. rewrite ServeHTTP_reload.
  unfold reloadHandler. step. by rewrite Hsig.
Qed.

(** C2, as amended.  When the reload signal is delivered and the
    completion signal arrives within the bound, the handler answers
    201 as soon as some entry of the live listener map is missing
    from the snapshot taken before the reload, or differs from its
    snapshot in address or port; the service block plays no part. *)
Theorem reload_listener_change_is_reported (env : Env) (s : World) (t : Z) :
  sendReloadSignal env = None →
  reloadDoneCh env = Some t → t < reloadTimeout →
  (∃ k v, live env !! k = Some v ∧
     (snapshot s !! k = None ∨
      ∃ l, snapshot s !! k = Some l ∧ (ctrld.IP l ≠ ctrld.IP v ∨ ctrld.Port l ≠ ctrld.Port v))) →
  statusOf (serve env reloadPath s) = Some 201.
Proof.
  intros Hsig Hdone Ht Hchg.
  rewrite (reload_received env s t Hsig)
    by (rewrite Hdone; by apply selectAfter_before).
  unfold statusOf, reloadVerdict; simpl.
  by rewrite (proj2 (listenerChanged_live (snapshot s) (live env)) Hchg).
Qed.

(** C3. When the completion signal arrives within the bound, the live
    listeners are those of the snapshot (none missing on either side,
    same address and port) and the live service block is deeply equal
    to the one saved before the reload, the handler answers 200. *)
Theorem reload_unchanged_is_200 (env : Env) (s : World) (t : Z) :
  sendReloadSignal env = None →
  reloadDoneCh env = Some t → t < reloadTimeout →
  listenersMatch (snapshot s) (live env) →
  DeepEqual (Service (cfg s)) (Service (reloaded env)) = true →
  statusOf (serve env reloadPath s) = Some 200.
Proof.
  intros Hsig Hdone Ht Hl Hsvc.
  rewrite (reload_received env s t Hsig)
    by (rewrite Hdone; by apply selectAfter_before).
  unfold statusOf, reloadVerdict; simpl.
  by rewrite (listenersMatch_unchanged _ _ Hl), Hsvc.
Qed.

(** C4. When the completion signal arrives within the bound and the
    live listeners are exactly those of the snapshot, a live service
    block that is not deeply equal to the saved one makes the handler
    answer 201. *)
Theorem reload_service_change_is_reported (env : Env) (s : World) (t : Z) :
  sendReloadSignal env = None →
  reloadDoneCh env = Some t → t < reloadTimeout →
  listenersMatch (snapshot s) (live env) →
  DeepEqual (Service (cfg s)) (Service (reloaded env)) = false →
  statusOf (serve env reloadPath s) = Some 201.
Proof.
  intros Hsig Hdone Ht Hl Hsvc.
  rewrite (reload_received env s t Hsig)
    by (rewrite Hdone; by apply selectAfter_before).
  unfold statusOf, reloadVerdict; simpl.
  by rewrite (listenersMatch_unchanged _ _ Hl), Hsvc.
Qed.

(** C5. When the reload signal cannot be delivered the handler
    answers 500 with the error message, and neither waits nor takes
    the lock again: its calls stop at [sendReloadSignal].  When the
    signal is delivered and the completion signal does not arrive
    within 5 seconds, it answers 500 with a timeout message after
    those 5 seconds, and its calls stop at the wait. *)
Theorem reload_failure_aborts (env : Env) (s : World) :
  (∀ err, sendReloadSignal env = Some err →
     ∃ s', serve env reloadPath s = Some s' ∧
       http.status (w s') = 500 ∧
       http.written (w s') = [Text (err +:+ newline)] ∧
       trace s' = [EvLock; EvUnlock; EvSendReloadSignal] ∧
       waited s' = 0) ∧
  (sendReloadSignal env = None →
   (reloadDoneCh env = None ∨ ∃ t, reloadDoneCh env = Some t ∧ reloadTimeout < t) →
     ∃ s', serve env reloadPath s = Some s' ∧
       http.status (w s') = 500 ∧
       http.written (w s') = [Text ("timeout waiting for ctrld reload" +:+ newline)] ∧
       trace s' = [EvLock; EvUnlock; EvSendReloadSignal;
                   EvSelect "reloadDoneCh" (5 * time.Second)] ∧
       waited s' = 5 * time.Second).
Proof.
  split.
  - intros err Hsig. rewrite (reload_not_signalled env s err Hsig).
    eexists; split; [done|]. done.
  - intros Hsig Hlate.
    rewrite (reload_timed_out env s reloadTimeout Hsig).
    + eexists; split; [done|]. done.
    + destruct Hlate as [->|(t & -> & Ht)]; [done|]. by apply selectAfter_after.
Qed.

(** *** /clients *)

Lemma byIP_sorted (clients : list Client) :
  StronglySorted byIP (sort.Slice (λ a b, netip.Less (IP a) (IP b)) clients).
Proof.
  assert (Transitive byIP) as Htrans.
  { intros a b c Hab Hbc. unfold byIP, notAfter in *.
    by apply (Less_notAfter_trans (IP a) (IP b) (IP c)). }
  apply Sorted_StronglySorted; [done|].
  apply Slice_sorted. intros a b. apply Less_asym.
Qed.

Lemma enrich_IP (env : Env) (client : Client) : IP (enrich env client) = IP client.
Proof. unfold enrich. simpl. by destruct (GetMetric env _ _ _). Qed.

Lemma enrich_flag (env : Env) (client : Client) :
  IncludeQueryCount (enrich env client) = true.
Proof. unfold enrich. simpl. by destruct (GetMetric env _ _ _). Qed.

Lemma shown_sorted (env : Env) (clients : list Client) :
  StronglySorted byIP clients → StronglySorted byIP (shown env clients).
Proof.
  unfold shown. destruct (metricsQueryStats env); [|done].
  apply StronglySorted_fmap. intros a b. unfold byIP, notAfter.
  by rewrite !enrich_IP.
Qed.

Lemma shown_perm (env : Env) (clients table : list Client) :
  clients ≡ₚ table → shown env clients ≡ₚ shown env table.
Proof.
  intros Hp. unfold shown. destruct (metricsQueryStats env); [|done].
  by apply fmap_Permutation.
Qed.

Lemma listClients_encoded (env : Env) (s : World) :
  Encode env = EncodeOk →
  serve env listClientsPath s
  = Some (mkWorld
            (http.mkWriter contentTypeJson (Some 200)
               [JsonClients
                  (shown env (sort.Slice (λ a b, netip.Less (IP a) (IP b))
                                         (ListClients env)))])
            (cfg s) (internalLogSent s) (cdDeactivationPin s) [EvListClients] 0).
Proof.
  intros Henc. unfold serve. rewrite ServeHTTP_listClients.
  unfold listClientsHandler, jsonEncode, shown. step. by rewrite Henc.
Qed.

(** C6. Whatever the order in which the client table is handed to
    the handler, the listing it encodes is that table (with the query
    counts filled in when the flag is on), ascending by IP. *)
Theorem listing_sorted_by_IP (env : Env) (s : World) (table : list Client) :
  ListClients env ≡ₚ table →
  Encode env = EncodeOk →
  ∃ s' clients,
    serve env listClientsPath s = Some s' ∧
    http.status (w s') = 200 ∧
    http.written (w s') = [JsonClients clients] ∧
    StronglySorted byIP clients ∧
    clients ≡ₚ shown env table.
Proof.
  intros Hp Henc. rewrite (listClients_encoded env s Henc).
  eexists _, _. split; [done|]. simpl. split; [done|]. split; [done|]. split.
  - apply shown_sorted, byIP_sorted.
  - apply shown_perm. by rewrite Slice_perm.
Qed.

(** C10. With the query-count flag on, every record of the listing
    has [IncludeQueryCount] set, the records whose registry lookup
    failed included; such a record keeps the query count it had, and
    a record whose lookup succeeded carries the counter. *)
Theorem listing_flags_every_client (env : Env) (s : World) :
  metricsQueryStats env = true →
  Encode env = EncodeOk →
  ∃ s' clients,
    serve env listClientsPath s = Some s' ∧
    http.written (w s') = [JsonClients clients] ∧
    clients ≡ₚ enrich env <$> ListClients env ∧
    Forall (λ client, IncludeQueryCount client = true) clients ∧
    ∀ client, client ∈ ListClients env →
      (∀ err, GetMetric env (IP client) (Mac client) (Hostname client)
              = MetricLookupFailed err →
         enrich env client = setIncludeQueryCount true client) ∧
      (∀ value, GetMetric env (IP client) (Mac client) (Hostname client)
                = MetricCounter value →
         enrich env client = setQueryCount value (setIncludeQueryCount true client)).
Proof.
  intros Hflag Henc. rewrite (listClients_encoded env s Henc).
  eexists _, _. split; [done|]. simpl. split; [done|].
  unfold shown. rewrite Hflag. split; [|split].
  - apply fmap_Permutation, Slice_perm.
  - apply Forall_fmap, Forall_forall. intros client _. apply enrich_flag.
  - intros client _. unfold enrich; simpl. split; intros ? ->; done.
Qed.

(** *** /logs/view and /logs/send *)

Lemma viewLogs_run (env : Env) (s : World) :
  ∃ s', serve env viewLogsPath s = Some s' ∧
    trace s' = [EvLogContent] ∧ waited s' = 0 ∧
    match logContent env with
    | (_, Some err) =>
        http.status (w s') = 400 ∧ http.written (w s') = [Text (err +:+ newline)]
    | (data, None) =>
        len data = 0 → http.status (w s') = 301 ∧ http.written (w s') = []
    end.
Proof.
  unfold serve. rewrite ServeHTTP_viewLogs. unfold viewLogsHandler, jsonEncode.
  destruct (logContent env) as [data [err|]]; step; [ran|].
  destruct (Z.eqb_spec (len data) 0); [ran|].
  destruct (Encode env); step; ran.
Qed.

Lemma sendLogs_throttled (env : Env) (s : World) :
  time.Sub (Now env) (internalLogSent s) < logSentInterval →
  serve env sendLogsPath s
  = Some (mkWorld (http.mkWriter contentTypeJson (Some 503) [])
                  (cfg s) (internalLogSent s) (cdDeactivationPin s) [EvNow] 0).
Proof.
  intros Hlt. unfold serve. rewrite ServeHTTP_sendLogs. unfold sendLogsHandler.
  step. by rewrite (proj2 (Z.ltb_lt _ _) Hlt).
Qed.

Lemma sendLogs_read (env : Env) (s : World) :
  logSentInterval ≤ time.Sub (Now env) (internalLogSent s) →
  ∃ s', serve env sendLogsPath s = Some s' ∧ waited s' = 0 ∧
    match logContent env with
    | (_, Some err) =>
        http.status (w s') = 400 ∧ http.written (w s') = [Text (err +:+ newline)] ∧
        trace s' = [EvNow; EvLogContent] ∧ internalLogSent s' = internalLogSent s
    | (data, None) =>
        if len data =? 0 then
          http.status (w s') = 301 ∧ http.written (w s') = [] ∧
          trace s' = [EvNow; EvLogContent] ∧ internalLogSent s' = internalLogSent s
        else
          http.status (w s') = match SendLogs env with Some _ => 500 | None => 200 end ∧
          trace s' = [EvNow; EvLogContent; EvSendLogs (cdUID env) data; EvNow] ∧
          internalLogSent s' = NowAfter env
    end.
Proof.
  intros Hge. unfold serve. rewrite ServeHTTP_sendLogs.
  unfold sendLogsHandler, jsonEncode. step.
  rewrite (proj2 (Z.ltb_ge _ _) Hge).
  destruct (logContent env) as [data [err|]]; step; [ran|].
  destruct (len data =? 0); [ran|].
  destruct (SendLogs env), (Encode env); step; ran.
Qed.

(** C7. In the log-view handler and, once past the throttle, in the
    log-ship handler, a log that is read and is empty is answered 301
    with no body, and a log that cannot be read is answered 400 with
    the error message: the two never share a status. *)
Theorem logs_empty_and_error_differ (env : Env) (s : World) :
  (∃ s', serve env viewLogsPath s = Some s' ∧
     (∀ data err, logContent env = (data, Some err) →
        http.status (w s') = 400 ∧ http.written (w s') = [Text (err +:+ newline)]) ∧
     (∀ data, logContent env = (data, None) → len data = 0 →
        http.status (w s') = 301 ∧ http.written (w s') = [])) ∧
  (logSentInterval ≤ time.Sub (Now env) (internalLogSent s) →
   ∃ s', serve env sendLogsPath s = Some s' ∧
     (∀ data err, logContent env = (data, Some err) →
        http.status (w s') = 400 ∧ http.written (w s') = [Text (err +:+ newline)]) ∧
     (∀ data, logContent env = (data, None) → len data = 0 →
        http.status (w s') = 301 ∧ http.written (w s') = [])).
Proof.
  split.
  - destruct (viewLogs_run env s) as (s' & Hrun & _ & _ & Hlog).
    exists s'. split; [done|]. split.
    + intros data err Heq. by rewrite Heq in Hlog.
    + intros data Heq Hlen. rewrite Heq in Hlog. by apply Hlog.
  - intros Hge. destruct (sendLogs_read env s Hge) as (s' & Hrun & _ & Hlog).
    exists s'. split; [done|]. split.
    + intros data err Heq. rewrite Heq in Hlog. tauto.
    + intros data Heq Hlen. rewrite Heq, Hlen in Hlog. simpl in Hlog. tauto.
Qed.

(** C8. A log-ship request that arrives less than the throttle
    interval after the last attempt is answered 503, and neither the
    log is read nor anything sent.  A request that gets as far as the
    transmission sets the throttle timestamp to the time at which it
    ends, whether the transmission succeeded (200) or failed (500); so
    a request that follows a failed transmission within the interval
    is answered 503. *)
Theorem log_ship_throttle (env : Env) (s : World) :
  (time.Sub (Now env) (internalLogSent s) < logSentInterval →
   ∃ s', serve env sendLogsPath s = Some s' ∧
     http.status (w s') = 503 ∧ trace s' = [EvNow] ∧
     internalLogSent s' = internalLogSent s) ∧
  (logSentInterval ≤ time.Sub (Now env) (internalLogSent s) →
   ∀ data, logContent env = (data, None) → len data ≠ 0 →
   ∃ s', serve env sendLogsPath s = Some s' ∧
     EvSendLogs (cdUID env) data ∈ trace s' ∧
     http.status (w s') = match SendLogs env with Some _ => 500 | None => 200 end ∧
     internalLogSent s' = NowAfter env ∧
     ∀ next : Env,
       time.Sub (Now next) (NowAfter env) < logSentInterval →
       ∃ s'', serve next sendLogsPath s' = Some s'' ∧
         http.status (w s'') = 503 ∧ trace s'' = [EvNow]).
Proof.
  split.
  - intros Hlt. rewrite (sendLogs_throttled env s Hlt). eauto.
  - intros Hge data Heq Hlen.
    destruct (sendLogs_read env s Hge) as (s' & Hrun & _ & Hlog).
    rewrite Heq, (proj2 (Z.eqb_neq _ _) Hlen) in Hlog.
    destruct Hlog as (Hcode & Htrace & Hsent).
    exists s'. split; [done|]. split; [rewrite Htrace; set_solver|].
    split; [done|]. split; [done|].
    intros next Hnext. rewrite <- Hsent in Hnext.
    rewrite (sendLogs_throttled next s' Hnext). eauto.
Qed.

(** *** Waiting: /started, /reload, /iface *)

Lemma started_run (env : Env) (s : World) :
  ∃ s', serve env startedPath s = Some s' ∧
    waited s' = (time.selectAfter (onStartedDone env) startedTimeout (coin env)).2 ∧
    http.status (w s') =
      match (time.selectAfter (onStartedDone env) startedTimeout (coin env)).1 with
      | time.Received => 200
      | time.TimedOut => 408
      end.
Proof.
  unfold serve. rewrite ServeHTTP_started. unfold startedHandler, select. step.
  destruct (time.selectAfter _ _ _) as [[] t]; step; ran.
Qed.

Lemma reload_run (env : Env) (s : World) :
  ∃ s', serve env reloadPath s = Some s' ∧
    (waited s' = 0 ∨
     waited s' = (time.selectAfter (reloadDoneCh env) reloadTimeout (coin env)).2).
Proof.
  destruct (sendReloadSignal env) as [err|] eqn:Hsig.
  - rewrite (reload_not_signalled env s err Hsig). ran; auto.
  - destruct (time.selectAfter (reloadDoneCh env) reloadTimeout (coin env))
      as [[] t] eqn:Hsel.
    + rewrite (reload_received env s t Hsig Hsel). ran; auto.
    + rewrite (reload_timed_out env s t Hsig Hsel). ran; auto.
Qed.

Lemma iface_run (env : Env) (s : World) :
  serve env ifacePath s =
    if Interactive env then
      Some (mkWorld (http.mkWriter contentTypeJson (Some 400) [])
                    (cfg s) (internalLogSent s) (cdDeactivationPin s) [] 0)
    else
      match csSetDnsDone env with
      | Some t =>
          Some (mkWorld
                  (if csSetDnsOk env
                   then http.mkWriter contentTypeJson (Some 200) [Text (iface env)]
                   else http.mkWriter contentTypeJson (Some 400) [])
                  (cfg s) (internalLogSent s) (cdDeactivationPin s)
                  [EvRecv "csSetDnsDone"] t)
      | None => None
      end.
Proof.
  unfold serve. rewrite ServeHTTP_iface. unfold ifaceHandler, recv. step.
  destruct (Interactive env); [done|]. simpl.
  destruct (csSetDnsDone env); [|done]. by destruct (csSetDnsOk env).
Qed.

(** The handlers that wait on no signal. *)
Lemma others_do_not_wait (env : Env) (s : World) (path : string) :
  path ∈ [listClientsPath; deactivationPath; cdPath; viewLogsPath; sendLogsPath] →
  ∃ s', serve env path s = Some s' ∧ waited s' = 0.
Proof.
  intros Hin. repeat (apply elem_of_cons in Hin as [->|Hin]).
  - unfold serve. rewrite ServeHTTP_listClients.
    unfold listClientsHandler, jsonEncode. step. destruct (Encode env); step; ran.
  - destruct (deactivation_run env s) as (s' & Hrun & _). exists s'. split; [done|].
    revert Hrun. unfold serve. rewrite ServeHTTP_deactivation.
    unfold deactivationHandler, deactivationPinNotSet.
    case_bool_decide; step; [by intros [= <-]|].
    destruct (fst (FetchResolverConfig env)) as [[[pin|]]|]; step.
    all: case_bool_decide; step; [by intros [= <-]|].
    all: destruct (Decode env); step; by intros [= <-].
  - unfold serve. rewrite ServeHTTP_cd. unfold cdHandler.
    case_bool_decide; step; ran.
  - destruct (viewLogs_run env s) as (s' & Hrun & _ & Hw & _). eauto.
  - destruct (Z.lt_ge_cases (time.Sub (Now env) (internalLogSent s)) logSentInterval)
      as [Hlt|Hge].
    + rewrite (sendLogs_throttled env s Hlt). ran.
    + destruct (sendLogs_read env s Hge) as (s' & Hrun & Hw & _). eauto.
  - by apply elem_of_nil in Hin.
Qed.

(** C9, as amended.  The readiness handler returns within its 10
    seconds and the reload handler waits at most its 5 seconds, on
    every request; the remaining handlers but one wait on nothing.
    The interface handler has no timeout: when the daemon runs as a
    service it returns when the DNS-binding signal fires, having
    waited that long, and does not return when the signal never
    fires; when the daemon is interactive it does not wait. *)
Theorem waits_are_bounded_except_iface (env : Env) (s : World) :
  (∃ s', serve env startedPath s = Some s' ∧ waited s' ≤ 10 * time.Second) ∧
  (∃ s', serve env reloadPath s = Some s' ∧ waited s' ≤ 5 * time.Second) ∧
  (∀ path,
     path ∈ [listClientsPath; deactivationPath; cdPath; viewLogsPath; sendLogsPath] →
     ∃ s', serve env path s = Some s' ∧ waited s' = 0) ∧
  (Interactive env = true →
     ∃ s', serve env ifacePath s = Some s' ∧ waited s' = 0) ∧
  (Interactive env = false →
     (∀ t, csSetDnsDone env = Some t →
        ∃ s', serve env ifacePath s = Some s' ∧ waited s' = t) ∧
     (csSetDnsDone env = None → serve env ifacePath s = None)).
Proof.
  split; [|split; [|split; [|split]]].
  - destruct (started_run env s) as (s' & Hrun & Hw & _).
    exists s'. split; [done|]. rewrite Hw. apply selectAfter_bound.
  - destruct (reload_run env s) as (s' & Hrun & Hw).
    exists s'. split; [done|].
    pose proof (selectAfter_bound (reloadDoneCh env) reloadTimeout (coin env)).
    unfold reloadTimeout, time.Second in *. lia.
  - intros path. apply others_do_not_wait.
  - intros Hi. rewrite iface_run, Hi. ran.
  - intros Hi. rewrite iface_run, Hi. split.
    + intros t ->. ran.
    + by intros ->.
Qed.

(** *** Dispatch, identity, readiness, interface *)

(** X1. The identity handler answers 200 with the device identifier as body
    when one is configured, and 400 with no body otherwise; it calls
    nothing. *)
Theorem identity_answer (env : Env) (s : World) :
  ∃ s', serve env cdPath s = Some s' ∧ trace s' = [] ∧
    (cdUID env ≠ EmptyString →
       http.status (w s') = 200 ∧ http.written (w s') = [Text (cdUID env)]) ∧
    (cdUID env = EmptyString →
       http.status (w s') = 400 ∧ http.written (w s') = []).
Proof.
  unfold serve. rewrite ServeHTTP_cd. unfold cdHandler.
  case_bool_decide; step; ran.
Qed.

(** X2. The readiness handler answers 200 when the start-up signal fires
    before its 10 seconds, having waited until then, and 408 after
    exactly 10 seconds when it fires later or never. *)
Theorem readiness_answer (env : Env) (s : World) :
  ∃ s', serve env startedPath s = Some s' ∧ http.written (w s') = [] ∧
    (∀ t, onStartedDone env = Some t → t < 10 * time.Second →
       http.status (w s') = 200 ∧ waited s' = t) ∧
    ((onStartedDone env = None ∨
      ∃ t, onStartedDone env = Some t ∧ 10 * time.Second < t) →
       http.status (w s') = 408 ∧ waited s' = 10 * time.Second).
Proof.
  unfold serve. rewrite ServeHTTP_started. unfold startedHandler, select. step.
  destruct (time.selectAfter _ _ _) as [sel d] eqn:Hsel.
  assert (sel = time.Received ∧ (∃ t, onStartedDone env = Some t ∧ d = t ∧ t ≤ 10 * time.Second)
          ∨ sel = time.TimedOut ∧ d = 10 * time.Second
            ∧ (∀ t, onStartedDone env = Some t → 10 * time.Second ≤ t)) as Hcases.
  { revert Hsel. unfold time.selectAfter, startedTimeout.
    destruct (onStartedDone env) as [t|]; [|intros [= <- <-]; right; done].
    destruct (Z.ltb_spec t (10 * time.Second)).
    { intros [= <- <-]. left. split; [done|]. exists t. split; [done|]. lia. }
    destruct (Z.ltb_spec (10 * time.Second) t).
    { intros [= <- <-]. right. split; [done|]. split; [done|]. intros ? [= <-]. lia. }
    destruct (coin env); intros [= <- <-].
    - left. split; [done|]. exists t. split; [done|]. lia.
    - right. split; [done|]. split; [done|]. intros ? [= <-]. lia. }
  destruct Hcases as [(-> & t & Hf & -> & Hle)|(-> & -> & Hge)]; step.
  - eexists; split; [reflexivity|]; simpl. split; [done|]. split.
    + intros t0 Hf0 _. rewrite Hf in Hf0. by injection Hf0 as <-.
    + intros [Hn|(t' & Hf' & Ht')]; [congruence|].
      rewrite Hf in Hf'. injection Hf' as <-. lia.
  - eexists; split; [reflexivity|]; simpl. split; [done|]. split.
    + intros t0 Hf0 Hlt. specialize (Hge _ Hf0). lia.
    + done.
Qed.

(** X3. The interface handler answers 400 at once when the daemon is
    interactive; run as a service it answers, once the DNS-binding
    signal has fired, with the interface name when the binding went
    well and with 400 and no body when it did not. *)
Theorem interface_answer (env : Env) (s : World) :
  (Interactive env = true →
     ∃ s', serve env ifacePath s = Some s' ∧
       http.status (w s') = 400 ∧ http.written (w s') = [] ∧ trace s' = []) ∧
  (Interactive env = false → ∀ t, csSetDnsDone env = Some t →
     ∃ s', serve env ifacePath s = Some s' ∧
       trace s' = [EvRecv "csSetDnsDone"] ∧
       (csSetDnsOk env = true →
          http.status (w s') = 200 ∧ http.written (w s') = [Text (iface env)]) ∧
       (csSetDnsOk env = false →
          http.status (w s') = 400 ∧ http.written (w s') = [])).
Proof.
  rewrite iface_run. split.
  - intros ->. ran.
  - intros -> t ->. destruct (csSetDnsOk env); ran.
Qed.

(** Splits on the innermost scrutinee of the goal. *)
Ltac inner_case :=
  match goal with
  | |- context [match ?x with _ => _ end] =>
      lazymatch x with
      | context [match _ with _ => _ end] => fail
      | _ => destruct x eqn:?
      end
  end.

(** What every handler that returns leaves behind: a typed response
    and a trace that keeps the discipline of the lock. *)
Lemma registered_outcome (env : Env) (s s' : World) (path : string) :
  path ∈ registered → serve env path s = Some s' →
  typedResponse s' ∧ disciplined false (trace s') = true.
Proof.
  intros Hin. unfold registered in Hin.
  repeat (apply elem_of_cons in Hin as [->|Hin]); [..|by apply elem_of_nil in Hin].
  all: unfold serve;
    rewrite ?ServeHTTP_listClients, ?ServeHTTP_started, ?ServeHTTP_reload,
      ?ServeHTTP_deactivation, ?ServeHTTP_cd, ?ServeHTTP_iface,
      ?ServeHTTP_viewLogs, ?ServeHTTP_sendLogs;
    unfold listClientsHandler, startedHandler, reloadHandler, deactivationHandler,
      deactivationPinNotSet, cdHandler, ifaceHandler, viewLogsHandler,
      sendLogsHandler, jsonEncode, select, recv, typedResponse; step;
    repeat (inner_case; step); intros [= <-]; simpl;
    (split; [|reflexivity]);
    first [ by left
          | right; split; [reflexivity|]; split; [by vm_compute|];
            eexists; reflexivity ].
Qed.

(** X4. Every response of a registered path is typed: it carries the JSON
    content type, unless it was produced by [http.Error], and then it
    is plain text under a status of 400 or more and ends with the error
    message.  So an answer below 400 is always JSON. *)
Theorem responses_are_typed (env : Env) (s s' : World) (path : string) :
  path ∈ registered →
  serve env path s = Some s' →
  (http.contentType (w s') = contentTypeJson ∨
   (http.contentType (w s') = "text/plain; charset=utf-8" ∧
    400 ≤ http.status (w s') ∧
    ∃ msg, last (http.written (w s')) = Some (Text (msg +:+ newline)))) ∧
  (http.status (w s') < 400 → http.contentType (w s') = contentTypeJson).
Proof.
  intros Hin Hrun.
  destruct (registered_outcome env s s' path Hin Hrun) as [Htyped _].
  split; [exact Htyped|].
  intros Hlt. destruct Htyped as [Hjson|(_ & Hge & _)]; [done|lia].
Qed.

(** X5. No handler returns with [p.mu] held, takes it twice, or holds it
    while it signals the daemon, waits on a channel or calls the remote
    side. *)
Theorem lock_discipline (env : Env) (s s' : World) (path : string) :
  path ∈ registered →
  serve env path s = Some s' → disciplined false (trace s') = true.
Proof.
  intros Hin Hrun. by destruct (registered_outcome env s s' path Hin Hrun).
Qed.

(** *** More on /deactivation *)

(** X6. A deactivation request is allowed in three cases and no other: no
    device identifier is configured, or the PIN is unset once the cache
    is refreshed, or the body decodes to the cached PIN. *)
Theorem deactivation_allowed_iff (env : Env) (s : World) :
  ∃ s', serve env deactivationPath s = Some s' ∧
    (http.status (w s') = 200 ↔
     cdUID env = EmptyString ∨
     refreshed env s = defaultDeactivationPin ∨
     ∃ req, Decode env = inr req ∧ Pin req = refreshed env s).
Proof.
  destruct (deactivation_run env s) as (s' & Hrun & Hcode & _).
  exists s'. split; [done|]. rewrite Hcode. unfold deactivationTable.
  destruct (decide (cdUID env = EmptyString)) as [Huid|Huid]; [by split; auto|].
  destruct (decide (refreshed env s = defaultDeactivationPin)) as [Hset|Hset];
    [by split; auto|].
  destruct (Decode env) as [err|req].
  - split; [done|]. intros [?|[?|(req & [=] & _)]]; done.
  - destruct (decide (Pin req = refreshed env s)) as [Hpin|Hpin].
    + split; [|done]. intros _. right. right. by exists req.
    + assert ((if decide (Pin req = defaultDeactivationPin) then 400 else 403) ≠ 200)
        by (case_decide; done).
      split; [done|]. intros [?|[?|(req' & [= <-] & ?)]]; done.
Qed.

(** X7. On a managed device the handler asks the remote side once, under
    the device identifier, and leaves the refreshed PIN in the cache
    whatever it then answers, a refusal included; on a device with no
    identifier it asks nothing and leaves the cache alone.  It writes
    no body and touches nothing else. *)
Theorem deactivation_refreshes_once (env : Env) (s : World) :
  ∃ s', serve env deactivationPath s = Some s' ∧
    http.written (w s') = [] ∧ waited s' = 0 ∧
    cfg s' = cfg s ∧ internalLogSent s' = internalLogSent s ∧
    (cdUID env = EmptyString →
       trace s' = [] ∧ cdDeactivationPin s' = cdDeactivationPin s) ∧
    (cdUID env ≠ EmptyString →
       trace s' = [EvFetchResolverConfig (cdUID env)] ∧
       cdDeactivationPin s' = refreshed env s).
Proof.
  unfold serve. rewrite ServeHTTP_deactivation.
  unfold deactivationHandler, deactivationPinNotSet, refreshed.
  case_bool_decide as Huid; step; [ran|].
  destruct (FetchResolverConfig env) as [[[[pin|]]|] e]; step.
  all: case_bool_decide; step; [ran|].
  all: destruct (Decode env); step; ran.
Qed.

(** *** More on /reload *)

(** X8. Once the completion signal is received the answer is 200 or 201,
    and it is 200 exactly when every live listener stands in the
    configuration the request found, with the same address and port,
    and the service block is deeply equal: a listener that is gone
    from the live map never turns the answer to 201. *)
Theorem reload_200_iff (env : Env) (s : World) (t : Z) :
  sendReloadSignal env = None →
  reloadDoneCh env = Some t → t < reloadTimeout →
  ∃ s', serve env reloadPath s = Some s' ∧
    (http.status (w s') = 200 ∨ http.status (w s') = 201) ∧
    (http.status (w s') = 200 ↔
     (∀ k v, Listener (reloaded env) !! k = Some v →
        ∃ l, Listener (cfg s) !! k = Some l ∧
             ctrld.IP l = ctrld.IP v ∧ ctrld.Port l = ctrld.Port v) ∧
     DeepEqual (Service (cfg s)) (Service (reloaded env)) = true).
Proof.
  intros Hsig Hdone Ht.
  rewrite (reload_received env s t Hsig)
    by (rewrite Hdone; by apply selectAfter_before).
  eexists; split; [reflexivity|]. simpl.
  unfold reloadVerdict, http.status, snapshot, live; simpl.
  rewrite snapshotListeners_copy.
  destruct (listenerChanged _ _) eqn:Hchg; simpl.
  - split; [by right|]. split; [done|]. intros [Hall _].
    apply listenerChanged_live in Hchg as (k & v & Hv & Hun).
    destruct (Hall k v Hv) as (l & Hl & Hip & Hport).
    destruct Hun as [Hnone|(l' & Hl' & Hne)]; [congruence|].
    simplify_eq. tauto.
  - assert (∀ k v, Listener (reloaded env) !! k = Some v →
              ∃ l, Listener (cfg s) !! k = Some l ∧
                   ctrld.IP l = ctrld.IP v ∧ ctrld.Port l = ctrld.Port v) as Hall.
    { intros k v Hv.
      destruct (Listener (cfg s) !! k) as [l|] eqn:Hl.
      - exists l. split; [done|].
        destruct (decide (ctrld.IP l = ctrld.IP v)) as [Hip|Hip];
          destruct (decide (ctrld.Port l = ctrld.Port v)) as [Hport|Hport];
          try done.
        all: exfalso; apply not_true_iff_false in Hchg; apply Hchg;
          apply listenerChanged_live; exists k, v; split; [done|];
          right; exists l; split; [done|]; tauto.
      - exfalso. apply not_true_iff_false in Hchg. apply Hchg.
        apply listenerChanged_live. exists k, v. split; [done|]. by left. }
    destruct (DeepEqual _ _); simpl.
    + split; [by left|]. done.
    + split; [by right|]. split; [done|]. by intros [_ ?].
Qed.

(** X9. Go ranges over a map in no fixed order: whatever the order in which
    the snapshot is filled and the live map is walked, the first check
    of the reload handler gives the same verdict. *)
Theorem reload_check_ignores_map_order
    (before current : gmap string ctrld.ListenerConfig)
    (order order' : list (string * ctrld.ListenerConfig)) :
  order ≡ₚ map_to_list before →
  order' ≡ₚ map_to_list current →
  listenerChanged (snapshotListeners order) order'
  = listenerChanged (snapshotListeners (map_to_list before)) (map_to_list current).
Proof.
  intros Hp Hp'.
  rewrite (snapshotListeners_perm before order Hp), snapshotListeners_copy.
  by apply listenerChanged_perm.
Qed.

(** *** More on /clients *)

Lemma Slice_unique (order table : list Client) :
  order ≡ₚ table →
  NoDup (IP <$> table) →
  Forall (λ client, zoneOnlyOn6 (IP client)) table →
  sort.Slice (λ a b, netip.Less (IP a) (IP b)) order
  = sort.Slice (λ a b, netip.Less (IP a) (IP b)) table.
Proof.
  intros Hp Hnd Hwf.
  apply (StronglySorted_unique_strong byIP); [|apply byIP_sorted..|].
  - intros a b Ha Hb Hab Hba.
    rewrite Slice_perm, Hp in Ha. rewrite Slice_perm in Hb.
    rewrite Forall_forall in Hwf.
    assert (IP a = IP b) as Hip
      by (apply Less_neither; [by apply Hwf|by apply Hwf|exact Hba|exact Hab]).
    apply list_elem_of_lookup in Ha as [i Hi], Hb as [j Hj].
    assert (i = j).
    { apply (NoDup_lookup _ i j (IP a) Hnd); rewrite list_lookup_fmap.
      - by rewrite Hi.
      - by rewrite Hj, Hip. }
    subst. congruence.
  - by rewrite !Slice_perm.
Qed.

(** X10. When the clients have pairwise different addresses, the whole
    response to a listing request is the same in whatever order the
    client table is handed over. *)
Theorem listing_is_deterministic (env : Env) (s : World) (order : list Client) :
  order ≡ₚ ListClients env →
  NoDup (IP <$> ListClients env) →
  Forall (λ client, zoneOnlyOn6 (IP client)) (ListClients env) →
  serve (handingOver order env) listClientsPath s = serve env listClientsPath s.
Proof.
  intros Hp Hnd Hwf. unfold serve. rewrite !ServeHTTP_listClients.
  unfold listClientsHandler, jsonEncode, enrich. simpl.
  by rewrite (Slice_unique order (ListClients env) Hp Hnd Hwf).
Qed.

(** *** More on the logs *)

Lemma Sub_mono (t t' u : Z) : t ≤ t' → time.Sub t u ≤ time.Sub t' u.
Proof. unfold time.Sub. lia. Qed.

(** What a log-ship request answers, case by case. *)
Lemma sendLogs_status (env : Env) (s : World) :
  ∃ s', serve env sendLogsPath s = Some s' ∧
    (time.Sub (Now env) (internalLogSent s) < logSentInterval →
       http.status (w s') = 503) ∧
    (logSentInterval ≤ time.Sub (Now env) (internalLogSent s) →
       EvLogContent ∈ trace s' ∧
       (http.status (w s') = 400 ∨ http.status (w s') = 301 ∨
        http.status (w s') = 500 ∨ http.status (w s') = 200)).
Proof.
  destruct (Z.lt_ge_cases (time.Sub (Now env) (internalLogSent s)) logSentInterval)
    as [Hlt|Hge].
  - rewrite (sendLogs_throttled env s Hlt). eexists; split; [reflexivity|].
    split; [done|]. lia.
  - destruct (sendLogs_read env s Hge) as (s' & Hrun & _ & Hlog).
    exists s'. split; [done|]. split; [lia|]. intros _.
    destruct (logContent env) as [data [err|]].
    + destruct Hlog as (-> & _ & -> & _). split; [set_solver|auto].
    + destruct (len data =? 0).
      * destruct Hlog as (-> & _ & -> & _). split; [set_solver|auto].
      * destruct Hlog as (-> & -> & _). split; [set_solver|].
        destruct (SendLogs env); auto.
Qed.

(** X11. The log-ship handler answers 503 when the request is throttled and
    in no other case. *)
Theorem log_ship_503_iff_throttled (env : Env) (s : World) :
  ∃ s', serve env sendLogsPath s = Some s' ∧
    (http.status (w s') = 503 ↔
     time.Sub (Now env) (internalLogSent s) < logSentInterval).
Proof.
  destruct (sendLogs_status env s) as (s' & Hrun & Hthr & Hrest).
  exists s'. split; [done|]. split; [|done].
  intros Hcode.
  destruct (Z.lt_ge_cases (time.Sub (Now env) (internalLogSent s)) logSentInterval)
    as [Hlt|Hge]; [done|].
  destruct (Hrest Hge) as [_ Hcodes]. lia.
Qed.

(** X12. A log-ship request that stops at the log, because the log cannot
    be read or is empty, sends nothing and leaves the throttle
    timestamp where it was: a request that comes later by the clock is
    not turned away on its account. *)
Theorem log_ship_early_exit_keeps_clock (env : Env) (s : World) (data : string) :
  logSentInterval ≤ time.Sub (Now env) (internalLogSent s) →
  (∃ err, logContent env = (data, Some err)) ∨
  (logContent env = (data, None) ∧ len data = 0) →
  ∃ s', serve env sendLogsPath s = Some s' ∧
    internalLogSent s' = internalLogSent s ∧
    trace s' = [EvNow; EvLogContent] ∧
    ∀ next : Env, Now env ≤ Now next →
      ∃ s'', serve next sendLogsPath s' = Some s'' ∧
        http.status (w s'') ≠ 503 ∧ EvLogContent ∈ trace s''.
Proof.
  intros Hge Hlog.
  destruct (sendLogs_read env s Hge) as (s' & Hrun & _ & Hs').
  assert (internalLogSent s' = internalLogSent s ∧ trace s' = [EvNow; EvLogContent])
    as [Hsent Htrace].
  { destruct Hlog as [[err Heq]|[Heq Hlen]]; rewrite Heq in Hs'.
    - tauto.
    - rewrite Hlen in Hs'. simpl in Hs'. tauto. }
  exists s'. split; [done|]. split; [done|]. split; [done|].
  intros next Hlater.
  destruct (sendLogs_status next s') as (s'' & Hrun' & _ & Hrest).
  exists s''. split; [done|].
  destruct Hrest as [Hread Hcodes].
  { rewrite Hsent. pose proof (Sub_mono _ _ (internalLogSent s) Hlater). lia. }
  split; [lia|done].
Qed.

(** X13. A log-ship request that gets as far as the transmission reports the
    size of the log in its body, with an empty error under 200 when the
    log was sent and with the error message under 500 when it was not;
    the body is JSON in both cases. *)
Theorem log_ship_report (env : Env) (s : World) (data : string) :
  logSentInterval ≤ time.Sub (Now env) (internalLogSent s) →
  logContent env = (data, None) → len data ≠ 0 →
  Encode env = EncodeOk →
  ∃ s', serve env sendLogsPath s = Some s' ∧
    http.contentType (w s') = contentTypeJson ∧
    match SendLogs env with
    | Some err =>
        http.status (w s') = 500 ∧ http.written (w s') = [JsonLogSent (len data) err]
    | None =>
        http.status (w s') = 200 ∧
        http.written (w s') = [JsonLogSent (len data) EmptyString]
    end.
Proof.
  intros Hge Hlog Hlen Henc. unfold serve. rewrite ServeHTTP_sendLogs.
  unfold sendLogsHandler, jsonEncode. step.
  rewrite (proj2 (Z.ltb_ge _ _) Hge), Hlog, (proj2 (Z.eqb_neq _ _) Hlen), Henc.
  destruct (SendLogs env); step; ran.
Qed.

(** X14. The log-view handler is not throttled and leaves the process as it
    is: it reads the log on every request, and answers 200 with the log
    as text when there is one and it can be encoded. *)
Theorem log_view_answer (env : Env) (s : World) :
  ∃ s', serve env viewLogsPath s = Some s' ∧
    trace s' = [EvLogContent] ∧ sameProcess s s' ∧
    ∀ data, logContent env = (data, None) → len data ≠ 0 →
      Encode env = EncodeOk →
      http.status (w s') = 200 ∧ http.written (w s') = [JsonLogView data].
Proof.
  unfold serve. rewrite ServeHTTP_viewLogs. unfold viewLogsHandler, jsonEncode.
  destruct (logContent env) as [data [err|]]; step; [ran|].
  destruct (Z.eqb_spec (len data) 0); [ran; simplify_eq; lia|].
  destruct (Encode env); step; ran; simplify_eq; done.
Qed.

End Properties.

(** ** The properties on the concrete daemon *)

(** The cases of the design document, section 8. *)

Example deactivation_right_pin :
  statusOf (Sample.serve (Sample.managed (inr (mkDeactivationRequest 1234)))
              deactivationPath (Sample.world Sample.oneListener 0 7)) = Some 200.
Proof. vm_compute. reflexivity. Qed.

Example deactivation_pin_omitted :
  statusOf (Sample.serve (Sample.managed (inr (mkDeactivationRequest (-1))))
              deactivationPath (Sample.world Sample.oneListener 0 7)) = Some 400.
Proof. vm_compute. reflexivity. Qed.

Example deactivation_wrong_pin :
  statusOf (Sample.serve (Sample.managed (inr (mkDeactivationRequest 9999)))
              deactivationPath (Sample.world Sample.oneListener 0 7)) = Some 403.
Proof. vm_compute. reflexivity. Qed.

Example deactivation_malformed :
  statusOf (Sample.serve (Sample.managed (inl "unexpected EOF"))
              deactivationPath (Sample.world Sample.oneListener 0 7)) = Some 412.
Proof. vm_compute. reflexivity. Qed.

Example deactivation_standalone :
  statusOf (Sample.serve Sample.standalone deactivationPath
              (Sample.world Sample.oneListener 0 1234)) = Some 200.
Proof. vm_compute. reflexivity. Qed.

Example listing_of_the_three :
  (λ s, http.written (w s))
    <$> Sample.serve Sample.calm listClientsPath (Sample.world Sample.oneListener 0 7)
  = Some [JsonClients
            [mkClient (netip.IPv4 10 0 0 7) "aa:bb:cc:00:00:03" "carol" 7 true;
             mkClient (netip.IPv4 192 168 1 3) "aa:bb:cc:00:00:02" "bob" 0 true;
             mkClient (netip.IPv4 192 168 1 20) "aa:bb:cc:00:00:01" "alice" 41 true]].
Proof. vm_compute. reflexivity. Qed.

Example unknown_path :
  statusOf (Sample.serve Sample.calm "/metrics" (Sample.world Sample.oneListener 0 7))
  = Some 404.
Proof. vm_compute. reflexivity. Qed.

(** C1 on the managed device: a wrong PIN is refused with 403. *)
Lemma deactivation_decision_table_witness :
  ∃ s', Sample.serve (Sample.managed (inr (mkDeactivationRequest 9999)))
          deactivationPath (Sample.world Sample.oneListener 0 7) = Some s' ∧
        cdDeactivationPin s' = 1234 ∧ http.status (w s') = 403.
Proof.
  destruct (deactivation_decision_table Sample.DeepEqual Sample.defaultDeactivationPin
              Sample.logSentInterval
              (Sample.managed (inr (mkDeactivationRequest 9999)))
              (Sample.world Sample.oneListener 0 7))
    as (s' & Hrun & _ & Hmanaged).
  exists s'. split; [exact Hrun|].
  destruct Hmanaged as (Hcached & _ & Hset); [discriminate|].
  split; [exact Hcached|].
  rewrite Hcached in Hset. destruct Hset as (_ & _ & _ & Hother); [discriminate|].
  apply (Hother (mkDeactivationRequest 9999)); [reflexivity|discriminate|discriminate].
Defined.

(** C2 as written fails: a listener of the snapshot that is gone from
    the live map goes unnoticed, and the handler answers 200. *)
Lemma reload_removed_listener_is_not_reported :
  sendReloadSignal Sample.calm = None ∧
  reloadDoneCh Sample.calm = Some time.Second ∧
  time.Second < reloadTimeout ∧
  snapshot (Sample.world Sample.twoListeners 0 7) !! "1" = Some Sample.loopback ∧
  live Sample.calm !! "1" = None ∧
  statusOf (Sample.serve Sample.calm reloadPath (Sample.world Sample.twoListeners 0 7))
  = Some 200.
Proof. repeat split; vm_compute; reflexivity. Qed.

(** C2 as amended, on a listener that moved from port 53 to 5353. *)
Lemma reload_listener_change_is_reported_witness :
  statusOf (Sample.serve
              (Sample.withReload None (Some time.Second) Sample.movedListener Sample.calm)
              reloadPath (Sample.world Sample.oneListener 0 7)) = Some 201.
Proof.
  apply (reload_listener_change_is_reported Sample.DeepEqual
           Sample.defaultDeactivationPin Sample.logSentInterval _ _ time.Second).
  - reflexivity.
  - reflexivity.
  - reflexivity.
  - exists "0", (ctrld.mkListener "192.168.1.1" 5353). split; [reflexivity|].
    right. exists Sample.lan. split; [vm_compute; reflexivity|].
    right. discriminate.
Defined.

(** C3 on a reload that changed nothing. *)
Lemma reload_unchanged_is_200_witness :
  statusOf (Sample.serve Sample.calm reloadPath (Sample.world Sample.oneListener 0 7))
  = Some 200.
Proof.
  apply (reload_unchanged_is_200 Sample.DeepEqual
           Sample.defaultDeactivationPin Sample.logSentInterval _ _ time.Second).
  - reflexivity.
  - reflexivity.
  - reflexivity.
  - replace (snapshot (Sample.world Sample.oneListener 0 7)) with (live Sample.calm)
      by (vm_compute; reflexivity).
    apply listenersMatch_refl.
  - vm_compute. reflexivity.
Defined.

(** C4 on a reload that changed the service block only. *)
Lemma reload_service_change_is_reported_witness :
  statusOf (Sample.serve
              (Sample.withReload None (Some time.Second) Sample.otherService Sample.calm)
              reloadPath (Sample.world Sample.oneListener 0 7)) = Some 201.
Proof.
  apply (reload_service_change_is_reported Sample.DeepEqual
           Sample.defaultDeactivationPin Sample.logSentInterval _ _ time.Second).
  - reflexivity.
  - reflexivity.
  - reflexivity.
  - replace (snapshot (Sample.world Sample.oneListener 0 7))
      with (live (Sample.withReload None (Some time.Second) Sample.otherService Sample.calm))
      by (vm_compute; reflexivity).
    apply listenersMatch_refl.
  - vm_compute. reflexivity.
Defined.

(** C5 on a daemon that cannot be signalled, and on one that never
    reports the end of the reload. *)
Lemma reload_failure_aborts_witness :
  (∃ s', Sample.serve
           (Sample.withReload (Some "service is not running") None
                              Sample.oneListener Sample.calm)
           reloadPath (Sample.world Sample.oneListener 0 7) = Some s' ∧
         http.status (w s') = 500 ∧
         trace s' = [EvLock; EvUnlock; EvSendReloadSignal]) ∧
  (∃ s', Sample.serve (Sample.withReload None None Sample.movedListener Sample.calm)
           reloadPath (Sample.world Sample.oneListener 0 7) = Some s' ∧
         http.status (w s') = 500 ∧
         waited s' = 5 * time.Second).
Proof.
  split.
  - destruct (reload_failure_aborts Sample.DeepEqual Sample.defaultDeactivationPin
                Sample.logSentInterval
                (Sample.withReload (Some "service is not running") None
                                   Sample.oneListener Sample.calm)
                (Sample.world Sample.oneListener 0 7)) as [Hfail _].
    destruct (Hfail "service is not running" eq_refl)
      as (s' & Hrun & Hcode & _ & Htrace & _).
    exists s'. split; [exact Hrun|]. split; [exact Hcode|exact Htrace].
  - destruct (reload_failure_aborts Sample.DeepEqual Sample.defaultDeactivationPin
                Sample.logSentInterval
                (Sample.withReload None None Sample.movedListener Sample.calm)
                (Sample.world Sample.oneListener 0 7)) as [_ Hlate].
    destruct (Hlate eq_refl (or_introl eq_refl))
      as (s' & Hrun & Hcode & _ & _ & Hwaited).
    exists s'. split; [exact Hrun|]. split; [exact Hcode|exact Hwaited].
Defined.

(** C6 on the three clients, handed over in two different orders. *)
Lemma listing_sorted_by_IP_witness :
  ∃ s' clients,
    Sample.serve Sample.calm listClientsPath (Sample.world Sample.oneListener 0 7)
    = Some s' ∧
    http.written (w s') = [JsonClients clients] ∧
    StronglySorted byIP clients ∧
    clients ≡ₚ shown Sample.calm [Sample.carol; Sample.bob; Sample.alice].
Proof.
  destruct (listing_sorted_by_IP Sample.DeepEqual Sample.defaultDeactivationPin
              Sample.logSentInterval Sample.calm
              (Sample.world Sample.oneListener 0 7)
              [Sample.carol; Sample.bob; Sample.alice])
    as (s' & clients & Hrun & _ & Hbody & Hsorted & Hperm).
  - apply (Permutation_rev [Sample.alice; Sample.bob; Sample.carol]).
  - reflexivity.
  - exists s', clients. repeat split; assumption.
Defined.

(** C7 on an empty log. *)
Lemma logs_empty_and_error_differ_witness :
  ∃ s', Sample.serve
          (Sample.withLogs (EmptyString, None) None (1000 * time.Second)
                           (1001 * time.Second) Sample.calm)
          sendLogsPath (Sample.world Sample.oneListener 0 7) = Some s' ∧
        http.status (w s') = 301.
Proof.
  destruct (logs_empty_and_error_differ Sample.DeepEqual Sample.defaultDeactivationPin
              Sample.logSentInterval
              (Sample.withLogs (EmptyString, None) None (1000 * time.Second)
                               (1001 * time.Second) Sample.calm)
              (Sample.world Sample.oneListener 0 7)) as [_ Hship].
  destruct Hship as (s' & Hrun & _ & Hempty); [vm_compute; discriminate|].
  exists s'. split; [exact Hrun|].
  exact (proj1 (Hempty EmptyString eq_refl eq_refl)).
Defined.

(** C8 on a transmission that fails at second 1001: the request of
    second 1002 is turned away. *)
Lemma log_ship_throttle_witness :
  ∃ s' s'',
    Sample.serve
      (Sample.withLogs ("ctrld started", None) (Some "connection refused")
                       (1000 * time.Second) (1001 * time.Second) Sample.calm)
      sendLogsPath (Sample.world Sample.oneListener 0 7) = Some s' ∧
    http.status (w s') = 500 ∧
    internalLogSent s' = 1001 * time.Second ∧
    Sample.serve
      (Sample.withLogs ("ctrld started", None) None
                       (1002 * time.Second) (1003 * time.Second) Sample.calm)
      sendLogsPath s' = Some s'' ∧
    http.status (w s'') = 503.
Proof.
  destruct (log_ship_throttle Sample.DeepEqual Sample.defaultDeactivationPin
              Sample.logSentInterval
              (Sample.withLogs ("ctrld started", None) (Some "connection refused")
                               (1000 * time.Second) (1001 * time.Second) Sample.calm)
              (Sample.world Sample.oneListener 0 7)) as [_ Hattempt].
  destruct (Hattempt ltac:(vm_compute; discriminate) "ctrld started" eq_refl
                     ltac:(vm_compute; discriminate))
    as (s' & Hrun & _ & Hcode & Hsent & Hnext).
  destruct (Hnext (Sample.withLogs ("ctrld started", None) None
                     (1002 * time.Second) (1003 * time.Second) Sample.calm)
                  ltac:(vm_compute; reflexivity))
    as (s'' & Hrun' & Hcode' & _).
  exists s', s''. repeat split; assumption.
Defined.

(** C9 as written fails: with the daemon run as a service and the
    DNS-binding signal never fired, the interface handler does not
    return. *)
Lemma iface_never_returns :
  Interactive (Sample.withIface false None true Sample.calm) = false ∧
  csSetDnsDone (Sample.withIface false None true Sample.calm) = None ∧
  Sample.serve (Sample.withIface false None true Sample.calm) ifacePath
    (Sample.world Sample.oneListener 0 7) = None.
Proof. repeat split; vm_compute; reflexivity. Qed.

(** C9 as amended, on a DNS-binding signal that fires after a minute. *)
Lemma waits_are_bounded_except_iface_witness :
  ∃ s', Sample.serve (Sample.withIface false (Some (60 * time.Second)) true Sample.calm)
          ifacePath (Sample.world Sample.oneListener 0 7) = Some s' ∧
        waited s' = 60 * time.Second.
Proof.
  destruct (waits_are_bounded_except_iface Sample.DeepEqual Sample.defaultDeactivationPin
              Sample.logSentInterval
              (Sample.withIface false (Some (60 * time.Second)) true Sample.calm)
              (Sample.world Sample.oneListener 0 7)) as (_ & _ & _ & _ & Hservice).
  destruct (Hservice eq_refl) as [Hfires _].
  exact (Hfires (60 * time.Second) eq_refl).
Defined.

(** C10 on the three clients: bob, whom the registry cannot look up,
    is flagged like the others and keeps his count. *)
Lemma listing_flags_every_client_witness :
  ∃ s' clients,
    Sample.serve Sample.calm listClientsPath (Sample.world Sample.oneListener 0 7)
    = Some s' ∧
    http.written (w s') = [JsonClients clients] ∧
    Forall (λ client, IncludeQueryCount client = true) clients ∧
    enrich Sample.calm Sample.bob = setIncludeQueryCount true Sample.bob.
Proof.
  destruct (listing_flags_every_client Sample.DeepEqual Sample.defaultDeactivationPin
              Sample.logSentInterval Sample.calm
              (Sample.world Sample.oneListener 0 7) eq_refl eq_refl)
    as (s' & clients & Hrun & Hbody & _ & Hflag & Hlookup).
  exists s', clients.
  split; [exact Hrun|]. split; [exact Hbody|]. split; [exact Hflag|].
  destruct (Hlookup Sample.bob) as [Hfailed _].
  - apply list_elem_of_In. right. left. reflexivity.
  - exact (Hfailed "inconsistent label cardinality" eq_refl).
Defined.

(** ** The dnsmasq configuration *)

Section StringFacts.

Lemma length_append (p s : string) :
  String.length (p +:+ s) = (String.length p + String.length s)%nat.
Proof.
  induction p as [|a p IH]; [done|].
  change (String a p +:+ s) with (String a (p +:+ s)). simpl. by rewrite IH.
Qed.

Lemma substring_whole (s : string) : String.substring 0 (String.length s) s = s.
Proof. induction s as [|a s IH]; [done|]. simpl. by rewrite IH. Qed.

Lemma substring_append_take (p s : string) :
  String.substring 0 (String.length p) (p +:+ s) = p.
Proof.
  induction p as [|a p IH]; [by destruct s|].
  change (String a p +:+ s) with (String a (p +:+ s)). simpl. by rewrite IH.
Qed.

Lemma substring_append_drop (p s : string) (n : nat) :
  String.substring (String.length p) n (p +:+ s) = String.substring 0 n s.
Proof.
  induction p as [|a p IH]; [done|].
  change (String a p +:+ s) with (String a (p +:+ s)). simpl. by rewrite IH.
Qed.

Lemma TrimPrefix_append (p s : string) : strings.TrimPrefix (p +:+ s) p = s.
Proof.
  unfold strings.TrimPrefix, strings.HasPrefix, strings.slice.
  rewrite length_append, Nat.sub_0_r, substring_append_take, String.eqb_refl.
  rewrite (proj2 (Nat.leb_le _ _)) by lia. simpl.
  replace (String.length p + String.length s - String.length p)%nat
    with (String.length s) by lia.
  by rewrite substring_append_drop, substring_whole.
Qed.

Lemma TrimSuffix_append (s suffix : string) : strings.TrimSuffix (s +:+ suffix) suffix = s.
Proof.
  unfold strings.TrimSuffix, strings.HasSuffix, strings.slice.
  rewrite length_append.
  replace (String.length s + String.length suffix - String.length suffix)%nat
    with (String.length s) by lia.
  replace (String.length s + String.length suffix - String.length s)%nat
    with (String.length suffix) by lia.
  rewrite substring_append_drop, substring_whole, String.eqb_refl.
  rewrite (proj2 (Nat.leb_le _ _)) by lia. simpl.
  by rewrite Nat.sub_0_r, substring_append_take.
Qed.

End StringFacts.

Section DnsmasqProperties.

Context {Template Config IP : Type}.
Variable env : dnsmasq.Env Template Config IP.

(** X15. Whatever the interface is called, its name is what is left of the
    path of its Firewalla file once the directory, [dnsmasq.dns.] and
    [.conf] are trimmed away. *)
Theorem ifaceName_of_match (name : string) :
  dnsmasq.ifaceName (dnsmasq.firewallaPrefix +:+ name +:+ dnsmasq.firewallaSuffix)
  = name.
Proof.
  unfold dnsmasq.ifaceName. by rewrite TrimPrefix_append, TrimSuffix_append.
Qed.

(** X16. [ConfTmpl] reports a missing listener before it touches the
    template, so even a template that does not parse gives an error
    and no panic.  With a listener it executes the template on one
    upstream, which has the port of the listener and its address,
    127.0.0.1 standing in for 0.0.0.0, :: and the empty address: the
    upstream is never a wildcard. *)
Theorem ConfTmpl_upstream (tmplText : string) (cfg : Config) :
  (dnsmasq.FirstListener env cfg = None →
     dnsmasq.ConfTmpl env tmplText cfg = dnsmasq.Err "missing listener") ∧
  (∀ listener, dnsmasq.FirstListener env cfg = Some listener →
     ∃ ip,
       dnsmasq.ConfTmpl env tmplText cfg
       = dnsmasq.confTmpl env tmplText
           [dnsmasq.mkUpstream ip (ctrld.Port listener)]
           (dnsmasq.HasUpstreamSendClientInfo env cfg) ∧
       ip ≠ "0.0.0.0" ∧ ip ≠ "::" ∧ ip ≠ EmptyString ∧
       (ip = ctrld.IP listener ∨
        ip = "127.0.0.1" ∧
        (ctrld.IP listener = "0.0.0.0" ∨ ctrld.IP listener = "::" ∨
         ctrld.IP listener = EmptyString))).
Proof.
  unfold dnsmasq.ConfTmpl. split; [by intros ->|].
  intros listener ->.
  destruct (String.eqb_spec (ctrld.IP listener) "0.0.0.0") as [H0|H0]; simpl.
  { exists "127.0.0.1". repeat split; try done. right. split; [done|]. by left. }
  destruct (String.eqb_spec (ctrld.IP listener) "::") as [H6|H6]; simpl.
  { exists "127.0.0.1". repeat split; try done. right. split; [done|]. right. by left. }
  destruct (String.eqb_spec (ctrld.IP listener) EmptyString) as [He|He]; simpl.
  { exists "127.0.0.1". repeat split; try done. right. split; [done|]. right. by right. }
  exists (ctrld.IP listener). repeat split; try done. by left.
Qed.

Lemma firewalla_addrs (port : Z) (addrs : list (dnsmasq.Addr IP))
    (acc : list dnsmasq.Upstream) :
  foldl (λ upstreams addr,
           match addr with
           | dnsmasq.IPNet ip =>
               match dnsmasq.To4 env ip with
               | Some ip4 =>
                   upstreams ++ [dnsmasq.mkUpstream (dnsmasq.IPString env ip4) port]
               | None => upstreams
               end
           | dnsmasq.OtherAddr => upstreams
           end) acc addrs
  = acc ++ omap (λ addr,
                   match addr with
                   | dnsmasq.IPNet ip =>
                       (λ ip4, dnsmasq.mkUpstream (dnsmasq.IPString env ip4) port)
                         <$> dnsmasq.To4 env ip
                   | dnsmasq.OtherAddr => None
                   end) addrs.
Proof.
  revert acc. induction addrs as [|[ip|] addrs IH]; intros acc; simpl.
  - by rewrite app_nil_r.
  - rewrite IH. destruct (dnsmasq.To4 env ip); simpl; [|done].
    by rewrite <- app_assoc.
  - by rewrite IH.
Qed.

Lemma firewallaUpstreams_elem (port : Z) (upstream : dnsmasq.Upstream) :
  upstream ∈ dnsmasq.firewallaUpstreams env port ↔
  ∃ matches match_ addrs ip ip4,
    dnsmasq.Glob env "/home/pi/firerouter/etc/dnsmasq.dns.*.conf" = Some matches ∧
    match_ ∈ matches ∧
    dnsmasq.InterfaceByName env (dnsmasq.ifaceName match_) = Some addrs ∧
    dnsmasq.IPNet ip ∈ addrs ∧
    dnsmasq.To4 env ip = Some ip4 ∧
    upstream = dnsmasq.mkUpstream (dnsmasq.IPString env ip4) port.
Proof.
  unfold dnsmasq.firewallaUpstreams.
  destruct (dnsmasq.Glob env _) as [matches|].
  2: { split; [by intros ?%elem_of_nil|]. by intros (? & ? & ? & ? & ? & [=] & _). }
  assert (∀ acc,
    upstream ∈ foldl (λ upstreams match_,
             match dnsmasq.InterfaceByName env (dnsmasq.ifaceName match_) with
             | Some addrs =>
                 foldl (λ upstreams addr,
                          match addr with
                          | dnsmasq.IPNet ip =>
                              match dnsmasq.To4 env ip with
                              | Some ip4 =>
                                  upstreams
                                  ++ [dnsmasq.mkUpstream (dnsmasq.IPString env ip4) port]
                              | None => upstreams
                              end
                          | dnsmasq.OtherAddr => upstreams
                          end)
                       upstreams addrs
             | None => upstreams
             end) acc matches ↔
    upstream ∈ acc ∨
    ∃ match_ addrs ip ip4, match_ ∈ matches ∧
      dnsmasq.InterfaceByName env (dnsmasq.ifaceName match_) = Some addrs ∧
      dnsmasq.IPNet ip ∈ addrs ∧ dnsmasq.To4 env ip = Some ip4 ∧
      upstream = dnsmasq.mkUpstream (dnsmasq.IPString env ip4) port) as Hfold.
  { induction matches as [|m matches IH]; intros acc; simpl.
    - split; [by left|]. intros [?|(? & ? & ? & ? & ?%elem_of_nil & _)]; done.
    - rewrite IH. clear IH.
      destruct (dnsmasq.InterfaceByName env (dnsmasq.ifaceName m)) as [addrs|] eqn:Hm.
      + rewrite firewalla_addrs, elem_of_app, list_elem_of_omap. split.
        * intros [[Hacc|(addr & Hin & Hup)]|(m' & addrs' & ip & ip4 & Hin & Hrest)].
          -- by left.
          -- right. destruct addr as [ip|]; [|done].
             destruct (dnsmasq.To4 env ip) as [ip4|] eqn:H4; [|done].
             injection Hup as <-. exists m, addrs, ip, ip4.
             split; [by left|]. done.
          -- right. exists m', addrs', ip, ip4. split; [by right|]. done.
        * intros [Hacc|(m' & addrs' & ip & ip4 & Hin & Hm' & Hip & H4 & ->)].
          -- left. by left.
          -- apply elem_of_cons in Hin as [->|Hin].
             ++ left. right. exists (dnsmasq.IPNet ip). rewrite Hm in Hm'.
                injection Hm' as <-. split; [done|]. by rewrite H4.
             ++ right. exists m', addrs', ip, ip4. done.
      + split.
        * intros [Hacc|(m' & addrs' & ip & ip4 & Hin & Hrest)]; [by left|].
          right. exists m', addrs', ip, ip4. split; [by right|]. done.
        * intros [Hacc|(m' & addrs' & ip & ip4 & Hin & Hm' & Hrest)]; [by left|].
          apply elem_of_cons in Hin as [->|Hin]; [congruence|].
          right. exists m', addrs', ip, ip4. done. }
  rewrite Hfold. split.
  - intros [?%elem_of_nil|(m & addrs & ip & ip4 & Hrest)]; [done|].
    exists matches, m, addrs, ip, ip4. done.
  - intros (matches' & m & addrs & ip & ip4 & [= <-] & Hrest).
    right. exists m, addrs, ip, ip4. done.
Qed.

(** X17. The upstreams of a Firewalla box are the IPv4 addresses of the
    interfaces that have a [dnsmasq.dns.*.conf] file and exist, each
    under the port asked for, and nothing else; there is none when
    the files cannot be listed. *)
Theorem firewallaUpstreams_members (port : Z) (upstream : dnsmasq.Upstream) :
  (upstream ∈ dnsmasq.firewallaUpstreams env port ↔
   ∃ matches match_ addrs ip ip4,
     dnsmasq.Glob env "/home/pi/firerouter/etc/dnsmasq.dns.*.conf" = Some matches ∧
     match_ ∈ matches ∧
     dnsmasq.InterfaceByName env (dnsmasq.ifaceName match_) = Some addrs ∧
     dnsmasq.IPNet ip ∈ addrs ∧
     dnsmasq.To4 env ip = Some ip4 ∧
     upstream = dnsmasq.mkUpstream (dnsmasq.IPString env ip4) port) ∧
  (upstream ∈ dnsmasq.firewallaUpstreams env port → dnsmasq.Port upstream = port) ∧
  (dnsmasq.Glob env "/home/pi/firerouter/etc/dnsmasq.dns.*.conf" = None →
   dnsmasq.firewallaUpstreams env port = []).
Proof.
  split; [apply firewallaUpstreams_elem|]. split.
  - intros Hin.
    apply firewallaUpstreams_elem in Hin as (? & ? & ? & ? & ? & _ & _ & _ & _ & _ & ->).
    done.
  - unfold dnsmasq.firewallaUpstreams. by intros ->.
Qed.

(** X18. [FirewallaConfTmpl] differs from [ConfTmpl] only for a first
    listener bound to 0.0.0.0 or to the empty address: the template is
    then executed on the upstreams of the interfaces, under the port of
    the listener, with no stand-in when there is none.  A listener
    bound to :: is handled by [ConfTmpl], as any other. *)
Theorem Firewalla_departs_on_wildcard_only (tmplText : string) (cfg : Config) :
  (dnsmasq.FirstListener env cfg = None →
     dnsmasq.FirewallaConfTmpl env tmplText cfg = dnsmasq.ConfTmpl env tmplText cfg) ∧
  (∀ lc, dnsmasq.FirstListener env cfg = Some lc →
     (ctrld.IP lc ≠ "0.0.0.0" → ctrld.IP lc ≠ EmptyString →
        dnsmasq.FirewallaConfTmpl env tmplText cfg
        = dnsmasq.ConfTmpl env tmplText cfg) ∧
     (ctrld.IP lc = "0.0.0.0" ∨ ctrld.IP lc = EmptyString →
        dnsmasq.FirewallaConfTmpl env tmplText cfg
        = dnsmasq.confTmpl env tmplText
            (dnsmasq.firewallaUpstreams env (ctrld.Port lc))
            (dnsmasq.HasUpstreamSendClientInfo env cfg) ∧
        Forall (λ upstream, dnsmasq.Port upstream = ctrld.Port lc)
               (dnsmasq.firewallaUpstreams env (ctrld.Port lc)))).
Proof.
  unfold dnsmasq.FirewallaConfTmpl. split; [by intros ->|].
  intros lc Hlc. rewrite Hlc. split.
  - intros H0 He.
    rewrite (proj2 (String.eqb_neq _ _) H0), (proj2 (String.eqb_neq _ _) He). done.
  - intros Hwild. split.
    + destruct Hwild as [->| ->]; done.
    + apply Forall_forall. intros upstream Hin.
      apply firewallaUpstreams_elem in Hin
        as (? & ? & ? & ? & ? & _ & _ & _ & _ & _ & ->).
      done.
Qed.

End DnsmasqProperties.

(** ** Set-up and clean-up on DD-WRT *)

Section RouterProperties.

Variable env : router.Env.

(** The map [setupDDWrt] hands to [nvramSetKV]. *)
Local Abbreviation written :=
  (<["dnsmasq_options" := (router.dnsMasqConf env).1]> (router.nvramSetupKV env)).

Lemma setupDDWrt_run :
  router.setupDDWrt env =
    let get := router.CallNvram ["get"; "ctrld_setup"] in
    let write := router.CallNvramSetKV written "ctrld_setup" in
    if String.eqb (router.nvram env ["get"; "ctrld_setup"]).1 "1" then (None, [get])
    else match (router.dnsMasqConf env).2 with
         | Some err => (Some err, [get; router.CallDnsMasqConf])
         | None =>
             match router.nvramSetKV env written "ctrld_setup" with
             | Some err =>
                 (Some err, [get; router.CallDnsMasqConf; router.CallNvramSetupKV; write])
             | None =>
                 (router.restartDNSMasq env,
                  [get; router.CallDnsMasqConf; router.CallNvramSetupKV; write;
                   router.CallRestartDNSMasq])
             end
         end.
Proof.
  unfold router.setupDDWrt, router.bind, router.call, router.ret,
    router.nvramCtrldSetupKey.
  destruct (router.nvram env ["get"; "ctrld_setup"]) as [val nerr]; simpl.
  destruct (String.eqb val "1"); [done|].
  destruct (router.dnsMasqConf env) as [data [cerr|]]; simpl; [done|].
  destruct (router.nvramSetKV env _ _); simpl; [done|].
  by destruct (router.restartDNSMasq env).
Qed.

(** Decides whether a call stands in an explicit list of calls. *)
Ltac calls :=
  rewrite ?elem_of_cons, ?elem_of_nil; intros Hc;
  repeat (destruct Hc as [Hc|Hc]); try done; try discriminate Hc;
  try (injection Hc as -> ->; done).

Lemma setupDDWrt_written (m : gmap string string) (key : string) :
  router.CallNvramSetKV m key ∈ (router.setupDDWrt env).2 →
  key = "ctrld_setup" ∧ m = written ∧ (router.dnsMasqConf env).2 = None.
Proof.
  rewrite setupDDWrt_run. cbn zeta.
  destruct (String.eqb _ "1"); simpl; [calls|].
  destruct (router.dnsMasqConf env).2; simpl; [calls|].
  destruct (router.nvramSetKV env _ _); simpl; calls.
Qed.

(** X19. [setupDDWrt] does nothing past the first look at nvram when the
    set-up flag reads 1, whether that look failed or not.  Otherwise it
    stops at the first step that fails and returns its error: nvram is
    written only with a configuration that could be generated, always
    under the set-up key and with the configuration as
    [dnsmasq_options], and dnsmasq is restarted only after nvram was
    written.  It succeeds when the flag was set or every step passed,
    and in no other case. *)
Theorem setupDDWrt_steps :
  ((router.nvram env ["get"; "ctrld_setup"]).1 = "1" →
     router.setupDDWrt env = (None, [router.CallNvram ["get"; "ctrld_setup"]])) ∧
  (∀ m key, router.CallNvramSetKV m key ∈ (router.setupDDWrt env).2 →
     key = "ctrld_setup" ∧ m = written ∧ (router.dnsMasqConf env).2 = None) ∧
  (router.CallRestartDNSMasq ∈ (router.setupDDWrt env).2 →
     router.CallNvramSetKV written "ctrld_setup" ∈ (router.setupDDWrt env).2 ∧
     router.nvramSetKV env written "ctrld_setup" = None) ∧
  ((router.setupDDWrt env).1 = None ↔
     (router.nvram env ["get"; "ctrld_setup"]).1 = "1" ∨
     ((router.dnsMasqConf env).2 = None ∧
      router.nvramSetKV env written "ctrld_setup" = None ∧
      router.restartDNSMasq env = None)).
Proof.
  split; [|split; [|split]].
  - intros Hset. rewrite setupDDWrt_run. cbn zeta. by rewrite Hset.
  - apply setupDDWrt_written.
  - rewrite setupDDWrt_run. cbn zeta.
    destruct (String.eqb _ "1"); simpl; [calls|].
    destruct (router.dnsMasqConf env).2; simpl; [calls|].
    destruct (router.nvramSetKV env _ _); simpl; [calls|].
    intros _. split; [repeat constructor|done].
  - rewrite setupDDWrt_run. cbn zeta.
    destruct (String.eqb_spec (router.nvram env ["get"; "ctrld_setup"]).1 "1")
      as [Hset|Hset]; simpl; [by split; auto|].
    destruct (router.dnsMasqConf env).2; simpl.
    { split; [done|]. intros [?|(? & _)]; done. }
    destruct (router.nvramSetKV env _ _); simpl.
    { split; [done|]. intros [?|(_ & ? & _)]; done. }
    split; [by auto|]. intros [?|(_ & _ & ?)]; done.
Qed.

(** X20. [cleanupDDWrt] restores, under the set-up key [setupDDWrt] wrote
    under, the keys of [nvramSetupKV]: these are all the keys the
    set-up wrote as soon as [dnsmasq_options] is one of them.  It
    restarts dnsmasq only after the restore went through, and returns
    the first error. *)
Theorem cleanupDDWrt_mirrors_setup :
  (∃ calls, (router.cleanupDDWrt env).2
            = router.CallNvramSetupKV
              :: router.CallNvramRestore (router.nvramSetupKV env) "ctrld_setup"
              :: calls ∧
     (router.CallRestartDNSMasq ∈ calls ↔
      router.nvramRestore env (router.nvramSetupKV env) "ctrld_setup" = None)) ∧
  ((router.cleanupDDWrt env).1 = None ↔
     router.nvramRestore env (router.nvramSetupKV env) "ctrld_setup" = None ∧
     router.restartDNSMasq env = None) ∧
  (is_Some (router.nvramSetupKV env !! "dnsmasq_options") →
   ∀ m key, router.CallNvramSetKV m key ∈ (router.setupDDWrt env).2 →
     key = "ctrld_setup" ∧ dom m = dom (router.nvramSetupKV env)).
Proof.
  split; [|split].
  - unfold router.cleanupDDWrt, router.bind, router.call, router.ret,
      router.nvramCtrldSetupKey; simpl.
    destruct (router.nvramRestore env _ _) as [err|]; simpl.
    + eexists; split; [reflexivity|]. split; [by intros ?%elem_of_nil|done].
    + destruct (router.restartDNSMasq env); simpl;
        (eexists; split; [reflexivity|]); (split; [done|]); intros _;
        repeat constructor.
  - unfold router.cleanupDDWrt, router.bind, router.call, router.ret,
      router.nvramCtrldSetupKey; simpl.
    destruct (router.nvramRestore env _ _) as [err|]; simpl.
    + split; [done|]. by intros [? _].
    + destruct (router.restartDNSMasq env); simpl.
      * split; [done|]. by intros [_ ?].
      * by split.
  - intros Hopt m key Hin.
    destruct (setupDDWrt_written m key Hin) as (-> & -> & _). split; [done|].
    rewrite dom_insert_L. apply elem_of_dom in Hopt.
    apply set_eq. intros k. rewrite elem_of_union, elem_of_singleton.
    split; [intros [->|?]; done|by right].
Qed.

End RouterProperties.

(** ** The further properties on the concrete daemon and router *)

(** The identity of the managed device. *)
Lemma identity_answer_witness :
  ∃ s', Sample.serve Sample.calm cdPath (Sample.world Sample.oneListener 0 7) = Some s' ∧
        http.status (w s') = 200 ∧ http.written (w s') = [Text "p2abcdef"].
Proof.
  destruct (identity_answer Sample.DeepEqual Sample.defaultDeactivationPin
              Sample.logSentInterval Sample.calm (Sample.world Sample.oneListener 0 7))
    as (s' & Hrun & _ & Hset & _).
  exists s'. split; [exact Hrun|]. apply Hset. discriminate.
Defined.

(** A daemon that has started already. *)
Lemma readiness_answer_witness :
  ∃ s', Sample.serve Sample.calm startedPath (Sample.world Sample.oneListener 0 7)
        = Some s' ∧
        http.status (w s') = 200 ∧ waited s' = 0.
Proof.
  destruct (readiness_answer Sample.DeepEqual Sample.defaultDeactivationPin
              Sample.logSentInterval Sample.calm (Sample.world Sample.oneListener 0 7))
    as (s' & Hrun & _ & Hfired & _).
  exists s'. split; [exact Hrun|]. apply Hfired; reflexivity.
Defined.

(** A service whose DNS binding went well after a minute. *)
Lemma interface_answer_witness :
  ∃ s', Sample.serve (Sample.withIface false (Some (60 * time.Second)) true Sample.calm)
          ifacePath (Sample.world Sample.oneListener 0 7) = Some s' ∧
        http.status (w s') = 200 ∧ http.written (w s') = [Text "eth0"].
Proof.
  destruct (interface_answer Sample.DeepEqual Sample.defaultDeactivationPin
              Sample.logSentInterval
              (Sample.withIface false (Some (60 * time.Second)) true Sample.calm)
              (Sample.world Sample.oneListener 0 7)) as [_ Hservice].
  destruct (Hservice eq_refl (60 * time.Second) eq_refl) as (s' & Hrun & _ & Hok & _).
  exists s'. split; [exact Hrun|]. apply Hok. reflexivity.
Defined.

(** The answer to a reload that changed nothing is JSON. *)
Lemma responses_are_typed_witness :
  ∃ s', Sample.serve Sample.calm reloadPath (Sample.world Sample.oneListener 0 7)
        = Some s' ∧
        http.contentType (w s') = contentTypeJson.
Proof.
  destruct (Sample.serve Sample.calm reloadPath (Sample.world Sample.oneListener 0 7))
    as [s'|] eqn:Hrun; [|vm_compute in Hrun; discriminate Hrun].
  exists s'. split; [reflexivity|].
  apply (responses_are_typed Sample.DeepEqual Sample.defaultDeactivationPin
           Sample.logSentInterval Sample.calm (Sample.world Sample.oneListener 0 7)
           s' reloadPath).
  - unfold registered. apply list_elem_of_In. right. right. left. reflexivity.
  - exact Hrun.
  - vm_compute in Hrun. injection Hrun as <-. reflexivity.
Defined.

(** The trace of that reload keeps the discipline of the lock. *)
Lemma lock_discipline_witness :
  ∃ s', Sample.serve Sample.calm reloadPath (Sample.world Sample.oneListener 0 7)
        = Some s' ∧
        disciplined false (trace s') = true.
Proof.
  destruct (Sample.serve Sample.calm reloadPath (Sample.world Sample.oneListener 0 7))
    as [s'|] eqn:Hrun; [|vm_compute in Hrun; discriminate Hrun].
  exists s'. split; [reflexivity|].
  apply (lock_discipline Sample.DeepEqual Sample.defaultDeactivationPin
           Sample.logSentInterval Sample.calm (Sample.world Sample.oneListener 0 7)
           s' reloadPath).
  - unfold registered. apply list_elem_of_In. right. right. left. reflexivity.
  - exact Hrun.
Defined.

(** The managed device lets the right PIN through. *)
Lemma deactivation_allowed_iff_witness :
  ∃ s', Sample.serve (Sample.managed (inr (mkDeactivationRequest 1234)))
          deactivationPath (Sample.world Sample.oneListener 0 7) = Some s' ∧
        http.status (w s') = 200.
Proof.
  destruct (deactivation_allowed_iff Sample.DeepEqual Sample.defaultDeactivationPin
              Sample.logSentInterval
              (Sample.managed (inr (mkDeactivationRequest 1234)))
              (Sample.world Sample.oneListener 0 7)) as (s' & Hrun & Hiff).
  exists s'. split; [exact Hrun|]. apply Hiff.
  right. right. exists (mkDeactivationRequest 1234). split; reflexivity.
Defined.

(** The managed device stores the PIN of the remote side while it
    refuses a wrong one. *)
Lemma deactivation_refreshes_once_witness :
  ∃ s', Sample.serve (Sample.managed (inr (mkDeactivationRequest 9999)))
          deactivationPath (Sample.world Sample.oneListener 0 7) = Some s' ∧
        trace s' = [EvFetchResolverConfig "p2abcdef"] ∧
        cdDeactivationPin s' = 1234.
Proof.
  destruct (deactivation_refreshes_once Sample.DeepEqual Sample.defaultDeactivationPin
              Sample.logSentInterval
              (Sample.managed (inr (mkDeactivationRequest 9999)))
              (Sample.world Sample.oneListener 0 7))
    as (s' & Hrun & _ & _ & _ & _ & _ & Hmanaged).
  exists s'. split; [exact Hrun|]. apply Hmanaged. discriminate.
Defined.

(** A reload that dropped the second listener is answered 200. *)
Lemma reload_200_iff_witness :
  ∃ s', Sample.serve Sample.calm reloadPath (Sample.world Sample.twoListeners 0 7)
        = Some s' ∧
        http.status (w s') = 200.
Proof.
  destruct (reload_200_iff Sample.DeepEqual Sample.defaultDeactivationPin
              Sample.logSentInterval Sample.calm
              (Sample.world Sample.twoListeners 0 7) time.Second
              eq_refl eq_refl eq_refl) as (s' & Hrun & _ & Hiff).
  exists s'. split; [exact Hrun|]. apply Hiff. split.
  - intros k v Hv.
    change (({[ "0" := Sample.lan ]} : gmap string ctrld.ListenerConfig) !! k = Some v)
      in Hv.
    apply lookup_singleton_Some in Hv as [<- <-].
    exists Sample.lan. split; [vm_compute; reflexivity|]. split; reflexivity.
  - vm_compute. reflexivity.
Defined.

(** The two listeners, ranged over backwards. *)
Lemma reload_check_ignores_map_order_witness :
  listenerChanged
    (snapshotListeners (reverse (map_to_list (Listener Sample.twoListeners))))
    (reverse (map_to_list (Listener Sample.movedListener)))
  = listenerChanged
      (snapshotListeners (map_to_list (Listener Sample.twoListeners)))
      (map_to_list (Listener Sample.movedListener)).
Proof.
  apply reload_check_ignores_map_order; apply reverse_Permutation.
Defined.

(** The three clients, handed over backwards. *)
Lemma listing_is_deterministic_witness :
  Sample.serve (handingOver [Sample.carol; Sample.bob; Sample.alice] Sample.calm)
    listClientsPath (Sample.world Sample.oneListener 0 7)
  = Sample.serve Sample.calm listClientsPath (Sample.world Sample.oneListener 0 7).
Proof.
  apply (listing_is_deterministic Sample.DeepEqual Sample.defaultDeactivationPin
           Sample.logSentInterval).
  - symmetry. apply (Permutation_rev [Sample.alice; Sample.bob; Sample.carol]).
  - refine (bool_decide_unpack _ _). vm_compute. exact I.
  - repeat constructor.
Defined.

(** A request one second after the last shipment is turned away. *)
Lemma log_ship_503_iff_throttled_witness :
  ∃ s', Sample.serve Sample.calm sendLogsPath
          (Sample.world Sample.oneListener (999 * time.Second) 7) = Some s' ∧
        http.status (w s') = 503.
Proof.
  destruct (log_ship_503_iff_throttled Sample.DeepEqual Sample.defaultDeactivationPin
              Sample.logSentInterval Sample.calm
              (Sample.world Sample.oneListener (999 * time.Second) 7))
    as (s' & Hrun & Hiff).
  exists s'. split; [exact Hrun|]. apply Hiff. vm_compute. reflexivity.
Defined.

(** An empty log at second 1000 does not stand in the way of the
    request of second 1002. *)
Lemma log_ship_early_exit_keeps_clock_witness :
  ∃ s' s'',
    Sample.serve
      (Sample.withLogs (EmptyString, None) None (1000 * time.Second)
                       (1001 * time.Second) Sample.calm)
      sendLogsPath (Sample.world Sample.oneListener 0 7) = Some s' ∧
    internalLogSent s' = 0 ∧
    Sample.serve
      (Sample.withLogs ("ctrld started", None) None (1002 * time.Second)
                       (1003 * time.Second) Sample.calm)
      sendLogsPath s' = Some s'' ∧
    http.status (w s'') ≠ 503.
Proof.
  destruct (log_ship_early_exit_keeps_clock Sample.DeepEqual
              Sample.defaultDeactivationPin Sample.logSentInterval
              (Sample.withLogs (EmptyString, None) None (1000 * time.Second)
                               (1001 * time.Second) Sample.calm)
              (Sample.world Sample.oneListener 0 7) EmptyString)
    as (s' & Hrun & Hsent & _ & Hnext).
  - vm_compute. discriminate.
  - right. split; reflexivity.
  - destruct (Hnext (Sample.withLogs ("ctrld started", None) None (1002 * time.Second)
                       (1003 * time.Second) Sample.calm))
      as (s'' & Hrun' & Hcode & _).
    + vm_compute. discriminate.
    + exists s', s''. repeat split; assumption.
Defined.

(** A shipment that fails reports the 13 bytes of the log and the
    error. *)
Lemma log_ship_report_witness :
  ∃ s',
    Sample.serve
      (Sample.withLogs ("ctrld started", None) (Some "connection refused")
                       (1000 * time.Second) (1001 * time.Second) Sample.calm)
      sendLogsPath (Sample.world Sample.oneListener 0 7) = Some s' ∧
    http.status (w s') = 500 ∧
    http.written (w s') = [JsonLogSent 13 "connection refused"].
Proof.
  destruct (log_ship_report Sample.DeepEqual Sample.defaultDeactivationPin
              Sample.logSentInterval
              (Sample.withLogs ("ctrld started", None) (Some "connection refused")
                               (1000 * time.Second) (1001 * time.Second) Sample.calm)
              (Sample.world Sample.oneListener 0 7) "ctrld started")
    as (s' & Hrun & _ & Hreport).
  - vm_compute. discriminate.
  - reflexivity.
  - vm_compute. discriminate.
  - reflexivity.
  - exists s'. split; [exact Hrun|]. exact Hreport.
Defined.

(** The log of the calm daemon, viewed. *)
Lemma log_view_answer_witness :
  ∃ s', Sample.serve Sample.calm viewLogsPath (Sample.world Sample.oneListener 0 7)
        = Some s' ∧
        http.status (w s') = 200 ∧ http.written (w s') = [JsonLogView "ctrld started"].
Proof.
  destruct (log_view_answer Sample.DeepEqual Sample.defaultDeactivationPin
              Sample.logSentInterval Sample.calm (Sample.world Sample.oneListener 0 7))
    as (s' & Hrun & _ & _ & Hview).
  exists s'. split; [exact Hrun|].
  apply Hview; [reflexivity|vm_compute; discriminate|reflexivity].
Defined.

(** A listener on 0.0.0.0 is handed to dnsmasq as 127.0.0.1. *)
Lemma ConfTmpl_upstream_witness :
  ∃ ip,
    dnsmasq.ConfTmpl SampleRouter.engine "server" SampleRouter.anyAddress
    = dnsmasq.confTmpl SampleRouter.engine "server" [dnsmasq.mkUpstream ip 53] true ∧
    ip ≠ "0.0.0.0".
Proof.
  destruct (ConfTmpl_upstream SampleRouter.engine "server" SampleRouter.anyAddress)
    as [_ Hlistener].
  destruct (Hlistener (ctrld.mkListener "0.0.0.0" 53) eq_refl)
    as (ip & Hrun & Hne & _).
  exists ip. split; [exact Hrun|exact Hne].
Defined.

(** The Firewalla box has an upstream, the IPv4 address of br0. *)
Lemma firewallaUpstreams_members_witness :
  dnsmasq.mkUpstream "192.168.218.1" 53
    ∈ dnsmasq.firewallaUpstreams SampleRouter.engine 53.
Proof.
  apply (firewallaUpstreams_members SampleRouter.engine 53).
  exists ["/home/pi/firerouter/etc/dnsmasq.dns.br0.conf";
          "/home/pi/firerouter/etc/dnsmasq.dns.br9.conf"],
         "/home/pi/firerouter/etc/dnsmasq.dns.br0.conf",
         [dnsmasq.OtherAddr; dnsmasq.IPNet [192; 168; 218; 1];
          dnsmasq.IPNet [254; 128; 0; 0; 0; 0; 0; 0; 0; 0; 0; 0; 0; 0; 0; 1]],
         [192; 168; 218; 1], [192; 168; 218; 1].
  split; [reflexivity|]. split; [left|].
  split; [vm_compute; reflexivity|]. split; [right; left|].
  split; reflexivity.
Defined.

(** On a Firewalla box a listener on :: is handled as anywhere else. *)
Lemma Firewalla_departs_on_wildcard_only_witness :
  dnsmasq.FirewallaConfTmpl SampleRouter.engine "server" SampleRouter.anyAddress6
  = dnsmasq.ConfTmpl SampleRouter.engine "server" SampleRouter.anyAddress6.
Proof.
  destruct (Firewalla_departs_on_wildcard_only SampleRouter.engine "server"
              SampleRouter.anyAddress6) as [_ Hlistener].
  destruct (Hlistener (ctrld.mkListener "::" 5354) eq_refl) as [Hother _].
  apply Hother; discriminate.
Defined.

(** The box is set up in five calls. *)
Lemma setupDDWrt_steps_witness :
  (router.setupDDWrt SampleRouter.box).1 = None.
Proof.
  destruct (setupDDWrt_steps SampleRouter.box) as (_ & _ & _ & Hok).
  apply Hok. right. repeat split; reflexivity.
Defined.

(** What the set-up of the box writes, its clean-up restores. *)
Lemma cleanupDDWrt_mirrors_setup_witness :
  dom (<["dnsmasq_options" := "no-resolv"]> (router.nvramSetupKV SampleRouter.box))
  = dom (router.nvramSetupKV SampleRouter.box).
Proof.
  destruct (cleanupDDWrt_mirrors_setup SampleRouter.box) as (_ & _ & Hkeys).
  apply (Hkeys (ex_intro _ EmptyString eq_refl)
               (<["dnsmasq_options" := "no-resolv"]> (router.nvramSetupKV SampleRouter.box))
               "ctrld_setup").
  vm_compute. do 3 apply list_elem_of_further. apply list_elem_of_here.
Defined.
